(** * EVall backend: blog content derivations, slugs, publishing and SEO records

    A shallow embedding of the Python sources under [blogs/] and [seo/]:
    - [BlogPost.calculate_reading_time] and [BlogPostListSerializer.get_excerpt]
      over the decoded EditorJS JSON document;
    - [BlogPost.save] (slug generation, [published_at] stamping, reading time);
    - the viewset actions [retrieve], [publish], [unpublish] and [latest];
    - [SEOTag.save] and the [AdvancedSEO] singleton.

    Python exceptions are modelled by the [result] monad below; strings are
    ASCII text ([String.string]); JSON numbers are integers. *)

From Stdlib Require Import String Ascii List Arith Lia Bool ZArith.
From Stdlib Require Import Sorting.Permutation Sorting.Sorted.
Import ListNotations.
Open Scope string_scope.
Set Warnings "-register-all".

(** ** Python values and exceptions *)

Module Py.

(** A decoded JSON value as Python sees it ([json.loads]): [None], [bool],
    [int], [str], [list] and [dict].  A [dict] is an association list in
    insertion order; dicts produced by the decoder have distinct keys. *)
Inductive json : Type :=
| JNull
| JBool (b : bool)
| JNum (z : Z)
| JStr (s : string)
| JArr (xs : list json)
| JObj (kvs : list (string * json)).

Inductive py_exc : Type := TypeError | AttributeError.

(** A Python computation either returns a value or raises. *)
Inductive result (A : Type) : Type :=
| Ok (a : A)
| Raise (e : py_exc).
Arguments Ok {A} a.
Arguments Raise {A} e.

Definition bind {A B : Type} (m : result A) (k : A -> result B) : result B :=
  match m with
  | Ok a => k a
  | Raise e => Raise e
  end.

Notation "x <- m ;; k" := (bind m (fun x => k))
  (at level 61, m at next level, right associativity).

Definition raises {A : Type} (m : result A) : bool :=
  match m with Ok _ => false | Raise _ => true end.

(** Python truthiness ([if not x]). *)
Definition truthy (v : json) : bool :=
  match v with
  | JNull => false
  | JBool b => b
  | JNum z => negb (Z.eqb z 0)
  | JStr s => negb (String.eqb s EmptyString)
  | JArr xs => negb (Nat.eqb (List.length xs) 0)
  | JObj kvs => negb (Nat.eqb (List.length kvs) 0)
  end.

(** [d.get(k)] on a dict: the value bound to [k], if any. *)
Fixpoint dict_get (kvs : list (string * json)) (k : string) : option json :=
  match kvs with
  | [] => None
  | (k', v) :: rest => if String.eqb k k' then Some v else dict_get rest k
  end.

(** [v.get(k, default)]: raises [AttributeError] unless [v] is a dict. *)
Definition get (v : json) (k : string) (default : json) : result json :=
  match v with
  | JObj kvs =>
      match dict_get kvs k with
      | Some x => Ok x
      | None => Ok default
      end
  | _ => Raise AttributeError
  end.

Fixpoint chars (s : string) : list json :=
  match s with
  | EmptyString => []
  | String c rest => JStr (String c EmptyString) :: chars rest
  end.

(** [for x in v]: lists yield their elements, strings their characters,
    dicts their keys; [None], [bool] and [int] raise [TypeError]. *)
Definition iter (v : json) : result (list json) :=
  match v with
  | JArr xs => Ok xs
  | JStr s => Ok (chars s)
  | JObj kvs => Ok (map (fun kv => JStr (fst kv)) kvs)
  | _ => Raise TypeError
  end.

(** [re.sub(pattern, repl, v)] accepts only a string argument. *)
Definition as_str (v : json) : result string :=
  match v with
  | JStr s => Ok s
  | _ => Raise TypeError
  end.

(** Whitespace of [str.split()] / [str.isspace] on ASCII: \t \n \v \f \r,
    the separators 0x1c-0x1f and the space. *)
Definition is_space (c : ascii) : bool :=
  let n := nat_of_ascii c in
  (Nat.leb 9 n && Nat.leb n 13) || (Nat.leb 28 n && Nat.leb n 32).

Fixpoint split_go (cur : list ascii) (s : string) : list string :=
  match s with
  | EmptyString =>
      match cur with
      | [] => []
      | _ => [string_of_list_ascii (rev cur)]
      end
  | String c rest =>
      if is_space c then
        match cur with
        | [] => split_go [] rest
        | _ => string_of_list_ascii (rev cur) :: split_go [] rest
        end
      else split_go (c :: cur) rest
  end.

(** [s.split()]: the maximal runs of non-whitespace characters. *)
Definition split (s : string) : list string := split_go [] s.

(** [re.sub(r'<[^>]+>', '', s)].  Scanning left to right, a match starts at
    a ['<'] and ends at the first ['>'] after it, provided at least one
    character lies in between; [buf] holds the characters read since an
    unmatched ['<'].  A ['<'] with no ['>'] after it is kept, as is ["<>"]. *)
Fixpoint strip_tags_go (buf : option string) (s : string) : string :=
  match s with
  | EmptyString =>
      match buf with
      | None => EmptyString
      | Some b => String "<" b
      end
  | String c rest =>
      match buf with
      | None =>
          if Ascii.eqb c "<" then strip_tags_go (Some EmptyString) rest
          else String c (strip_tags_go None rest)
      | Some b =>
          if Ascii.eqb c ">" then
            match b with
            | EmptyString => "<>" ++ strip_tags_go None rest
            | _ => strip_tags_go None rest
            end
          else strip_tags_go (Some (b ++ String c EmptyString)) rest
      end
  end.

Definition strip_tags (s : string) : string := strip_tags_go None s.

(** Decimal notation of a natural number ([str(n)], [f"{n}"]). *)
Definition digit (d : nat) : ascii := ascii_of_nat (48 + d).

Fixpoint decimal_fuel (fuel n : nat) : string :=
  match fuel with
  | 0 => EmptyString
  | S f =>
      (if Nat.ltb n 10 then EmptyString else decimal_fuel f (n / 10))
        ++ String (digit (n mod 10)) EmptyString
  end.

Definition string_of_nat (n : nat) : string := decimal_fuel (S n) n.

(** Reading a decimal numeral back ([int(s)] on digits). *)
Fixpoint decimal_value (acc : nat) (s : string) : nat :=
  match s with
  | EmptyString => acc
  | String c rest => decimal_value (acc * 10 + (nat_of_ascii c - 48)) rest
  end.

Definition string_of_Z (z : Z) : string :=
  if Z.ltb z 0 then "-" ++ string_of_nat (Z.to_nat (Z.opp z))
  else string_of_nat (Z.to_nat z).

Definition hex_digit (d : nat) : ascii :=
  if Nat.ltb d 10 then ascii_of_nat (48 + d) else ascii_of_nat (87 + d).

(** One character inside [repr] of a string quoted with [q]. *)
Definition repr_char (q : ascii) (c : ascii) : string :=
  let n := nat_of_ascii c in
  if Ascii.eqb c "\" then "\\"
  else if Ascii.eqb c q then String "\" (String q EmptyString)
  else if Nat.eqb n 9 then "\t"
  else if Nat.eqb n 10 then "\n"
  else if Nat.eqb n 13 then "\r"
  else if Nat.ltb n 32 || Nat.eqb n 127 then
    String "\" (String "x" (String (hex_digit (n / 16))
                               (String (hex_digit (n mod 16)) EmptyString)))
  else String c EmptyString.

Fixpoint has_char (c : ascii) (s : string) : bool :=
  match s with
  | EmptyString => false
  | String c' rest => Ascii.eqb c c' || has_char c rest
  end.

Fixpoint repr_body (q : ascii) (s : string) : string :=
  match s with
  | EmptyString => EmptyString
  | String c rest => repr_char q c ++ repr_body q rest
  end.

(** [repr(s)]: double quotes only when [s] has a single quote and no double
    quote. *)
Definition repr_str (s : string) : string :=
  let dq := ascii_of_nat 34 in
  let q := if has_char "'" s && negb (has_char dq s) then dq else "'"%char in
  String q (repr_body q s ++ String q EmptyString).

Fixpoint repr (v : json) : string :=
  match v with
  | JNull => "None"
  | JBool true => "True"
  | JBool false => "False"
  | JNum z => string_of_Z z
  | JStr s => repr_str s
  | JArr xs => "[" ++ String.concat ", " (map repr xs) ++ "]"
  | JObj kvs =>
      "{" ++ String.concat ", " (map (fun kv => repr_str (fst kv) ++ ": " ++ repr (snd kv)) kvs)
          ++ "}"
  end.

(** [s.lower()] on ASCII. *)
Definition lower_char (c : ascii) : ascii :=
  let n := nat_of_ascii c in
  if Nat.leb 65 n && Nat.leb n 90 then ascii_of_nat (n + 32) else c.

Fixpoint lower (s : string) : string :=
  match s with
  | EmptyString => EmptyString
  | String c rest => String (lower_char c) (lower rest)
  end.

(** [str(v)]. *)
Definition str (v : json) : string :=
  match v with
  | JStr s => s
  | _ => repr v
  end.

(** [round(n / d)] for a word count [n]: round half to even.  The quotient
    [n / 200] of a word count is exact enough in binary floating point that
    Python's [round] on it agrees with this integer computation. *)
Definition round_div (n d : nat) : nat :=
  let q := n / d in
  let r := n mod d in
  if Nat.ltb (2 * r) d then q
  else if Nat.ltb d (2 * r) then S q
  else if Nat.even q then q else S q.

End Py.

(** ** Derivations over the EditorJS document ([blogs/models.py],
    [blogs/serializers.py]) *)

Module Derive.
Import Py.

(** [block.get('type') in [...]]: only a string equal to a listed tag is in. *)
Definition kind_in (ty : option json) (tags : list string) : bool :=
  match ty with
  | Some (JStr t) => existsb (String.eqb t) tags
  | _ => false
  end.

Definition text_kinds : list string := ["paragraph"; "header"; "quote"; "Header"].
Definition list_kinds : list string := ["list"; "List"].

(** [len(re.sub(r'<[^>]+>', '', text).split())]. *)
Definition word_count (s : string) : nat := List.length (split (strip_tags s)).

(** Words contributed by one block in the loop of [calculate_reading_time]. *)
Definition block_words (block : json) : result nat :=
  match block with
  | JObj kvs =>
      let ty := dict_get kvs "type" in
      if kind_in ty text_kinds then
        data <- get block "data" (JObj []) ;;
        text <- get data "text" (JStr EmptyString) ;;
        s <- as_str text ;;
        Ok (word_count s)
      else if kind_in ty list_kinds then
        data <- get block "data" (JObj []) ;;
        items <- get data "items" (JArr []) ;;
        xs <- iter items ;;
        Ok (list_sum (map (fun item => word_count (str item)) xs))
      else Ok 0
  | _ => Raise AttributeError
  end.

Fixpoint blocks_words (blocks : list json) : result nat :=
  match blocks with
  | [] => Ok 0
  | b :: rest =>
      n <- block_words b ;;
      m <- blocks_words rest ;;
      Ok (n + m)
  end.

(** [BlogPost.calculate_reading_time], on [self.content]. *)
Definition calculate_reading_time (content : json) : result nat :=
  if negb (truthy content) then Ok 1
  else
    word_count <-
      match content with
      | JObj kvs =>
          match dict_get kvs "blocks" with
          | Some bs => blocks <- iter bs ;; blocks_words blocks
          | None => Ok 0
          end
      | _ => Ok 0
      end ;;
    Ok (Nat.max 1 (round_div word_count 200)).

(** [text[:200] + '...' if len(text) > 200 else text]. *)
Definition truncate (text : string) : string :=
  if Nat.ltb 200 (String.length text) then substring 0 200 text ++ "..." else text.

(** The loop of [get_excerpt]: the first block tagged exactly ['paragraph']. *)
Fixpoint first_paragraph (blocks : list json) : result string :=
  match blocks with
  | [] => Ok EmptyString
  | block :: rest =>
      match block with
      | JObj kvs =>
          match dict_get kvs "type" with
          | Some (JStr "paragraph") =>
              data <- get block "data" (JObj []) ;;
              text <- get data "text" (JStr EmptyString) ;;
              s <- as_str text ;;
              Ok (truncate (strip_tags s))
          | _ => first_paragraph rest
          end
      | _ => Raise AttributeError
      end
  end.

(** [BlogPostListSerializer.get_excerpt], on [obj.meta_description] and
    [obj.content]. *)
Definition get_excerpt (meta_description : string) (content : json) : result string :=
  if negb (String.eqb meta_description EmptyString) then Ok meta_description
  else
    match content with
    | JObj kvs =>
        if truthy content then
          let blocks := match dict_get kvs "blocks" with
                        | Some b => b
                        | None => JArr []
                        end in
          bs <- iter blocks ;;
          first_paragraph bs
        else Ok EmptyString
    | _ => Ok EmptyString
    end.

End Derive.

(** ** Block-level views of a document used to state the derivation
    properties *)

Module Blocks.
Import Py Derive.

(** The blocks the loop of [calculate_reading_time] visits. *)
Definition document_blocks (content : json) : list json :=
  if truthy content then
    match content with
    | JObj kvs =>
        match dict_get kvs "blocks" with
        | Some (JArr bs) => bs
        | _ => []
        end
    | _ => []
    end
  else [].

Definition block_tag (b : json) : option json :=
  match b with
  | JObj kvs => dict_get kvs "type"
  | _ => None
  end.

Definition is_text_block (b : json) : bool := kind_in (block_tag b) text_kinds.
Definition is_list_block (b : json) : bool := kind_in (block_tag b) list_kinds.

Definition block_data (b : json) : option json :=
  match b with
  | JObj kvs => dict_get kvs "data"
  | _ => None
  end.

(** Word count of a text-bearing block: its [data.text], markup stripped. *)
Definition text_block_words (b : json) : nat :=
  match block_data b with
  | Some (JObj d) =>
      match dict_get d "text" with
      | Some (JStr s) => word_count s
      | _ => 0
      end
  | _ => 0
  end.

(** Word count of a list block: the sum over its [data.items]. *)
Definition list_block_words (b : json) : nat :=
  match block_data b with
  | Some (JObj d) =>
      match dict_get d "items" with
      | Some (JArr xs) => list_sum (map (fun item => word_count (str item)) xs)
      | _ => 0
      end
  | _ => 0
  end.

(** The word total: text-bearing blocks plus list blocks, every other block
    contributing nothing. *)
Definition total_words (content : json) : nat :=
  list_sum (map text_block_words (filter is_text_block (document_blocks content)))
  + list_sum (map list_block_words (filter is_list_block (document_blocks content))).

(** The contribution of one block, in the word total. *)
Definition contribution (b : json) : nat :=
  if is_text_block b then text_block_words b
  else if is_list_block b then list_block_words b
  else 0.

(** Documents in the shape the editor produces: [blocks] (when present) is a
    list of objects, and a counted block's [data] (when present) is an object
    whose [text] is a string, resp. whose [items] is a list. *)
Definition text_data_ok (b : json) : bool :=
  match block_data b with
  | None => true
  | Some (JObj d) =>
      match dict_get d "text" with
      | None | Some (JStr _) => true
      | _ => false
      end
  | _ => false
  end.

Definition list_data_ok (b : json) : bool :=
  match block_data b with
  | None => true
  | Some (JObj d) =>
      match dict_get d "items" with
      | None | Some (JArr _) => true
      | _ => false
      end
  | _ => false
  end.

Definition well_formed_block (b : json) : bool :=
  match b with
  | JObj _ =>
      if is_text_block b then text_data_ok b
      else if is_list_block b then list_data_ok b
      else true
  | _ => false
  end.

Definition well_formed (content : json) : bool :=
  negb (truthy content) ||
  match content with
  | JObj kvs =>
      match dict_get kvs "blocks" with
      | None => true
      | Some (JArr bs) => forallb well_formed_block bs
      | Some _ => false
      end
  | _ => true
  end.

(** A document whose [blocks] list is [bs], the other top-level keys being
    [top1] and [top2]. *)
Definition doc_with (top1 : list (string * json)) (bs : list json)
    (top2 : list (string * json)) : json :=
  JObj (top1 ++ ("blocks", JArr bs) :: top2).

(** A block tagged [t] with the remaining fields [kvs]. *)
Definition tagged (t : string) (kvs : list (string * json)) : json :=
  JObj (("type", JStr t) :: kvs).

(** Two kind tags the code treats as the same casing variant. *)
Definition same_kind_variant (t1 t2 : string) : bool :=
  String.eqb t1 t2
  || (existsb (String.eqb t1) ["header"; "Header"] && existsb (String.eqb t2) ["header"; "Header"])
  || (existsb (String.eqb t1) ["list"; "List"] && existsb (String.eqb t2) ["list"; "List"]).

(** [n] words of text. *)
Fixpoint many_words (n : nat) : string :=
  match n with
  | 0 => EmptyString
  | S k => "w " ++ many_words k
  end.

End Blocks.

(** ** The reading time as the spec words it, for comparison *)

Module SpecReadingTime.
Import Py Derive Blocks.

(** Rounding to the nearest integer (ties upward; never reached below). *)
Definition round_nearest (n d : nat) : nat := (2 * n + d) / (2 * d).

(** The spec's word total: blocks whose kind, read through [canon], is
    paragraph, header or quote (text) or list (items). *)
Definition spec_words (canon : string -> string) (content : json) : nat :=
  let kind b := match block_tag b with Some (JStr t) => canon t | _ => EmptyString end in
  list_sum (map (fun b =>
    if existsb (String.eqb (kind b)) ["paragraph"; "header"; "quote"] then text_block_words b
    else if String.eqb (kind b) "list" then list_block_words b
    else 0) (document_blocks content)).

Definition spec_reading_time (canon : string -> string) (content : json) : nat :=
  Nat.max 1 (round_nearest (spec_words canon content) 200).

End SpecReadingTime.

(** ** The excerpt as the spec words it, for comparison *)

Module SpecExcerpt.
Import Py Derive Blocks.

(** The text of a block: its [data.text] when that is a string, else empty. *)
Definition block_text (b : json) : string :=
  match block_data b with
  | Some (JObj d) =>
      match dict_get d "text" with
      | Some (JStr s) => s
      | _ => EmptyString
      end
  | _ => EmptyString
  end.

(** The first block of kind paragraph, in document order. *)
Definition first_paragraph_block (content : json) : option json :=
  find (fun b => match block_tag b with
                 | Some (JStr t) => String.eqb t "paragraph"
                 | _ => false
                 end) (document_blocks content).

(** The spec's excerpt: the description when there is one; else the
    markup-stripped text of the first paragraph block, cut to 200
    characters with an ellipsis exactly when it is longer; else empty. *)
Definition spec_excerpt (description : string) (content : json) : string :=
  if negb (String.eqb description EmptyString) then description
  else
    match first_paragraph_block content with
    | Some b =>
        let t := strip_tags (block_text b) in
        if Nat.ltb 200 (String.length t) then substring 0 200 t ++ "..." else t
    | None => EmptyString
    end.

End SpecExcerpt.

(** ** Blog posts and their persistence ([blogs/models.py], [blogs/views.py]) *)

Module Posts.
Import Py Derive.

(** [django.utils.text.slugify] (framework code, not part of this
    repository), on ASCII text: lowercase, drop characters other than word
    characters, whitespace and ['-'], turn each run of ['-'] and whitespace
    into one ['-'], strip ['-'] and ['_'] at both ends.  Characters outside
    ASCII are dropped, as [encode('ascii', 'ignore')] does (their NFKD
    decompositions are not modelled). *)
Definition is_word_char (c : ascii) : bool :=
  let n := nat_of_ascii c in
  (Nat.leb 48 n && Nat.leb n 57) || (Nat.leb 65 n && Nat.leb n 90)
  || (Nat.leb 97 n && Nat.leb n 122) || Nat.eqb n 95.

Fixpoint keep_slug_chars (s : string) : string :=
  match s with
  | EmptyString => EmptyString
  | String c rest =>
      if Nat.ltb (nat_of_ascii c) 128
         && (is_word_char c || is_space c || Ascii.eqb c "-")
      then String c (keep_slug_chars rest) else keep_slug_chars rest
  end.

Definition dash_or_space (c : ascii) : bool := Ascii.eqb c "-" || is_space c.

(** [re.sub(r'[-\s]+', '-', s)]; [in_run] says the previous character
    belonged to a run already replaced by ['-']. *)
Fixpoint collapse_dashes (in_run : bool) (s : string) : string :=
  match s with
  | EmptyString => EmptyString
  | String c rest =>
      if dash_or_space c then
        if in_run then collapse_dashes true rest
        else String "-" (collapse_dashes true rest)
      else String c (collapse_dashes false rest)
  end.

Definition strip_char (c : ascii) : bool := Ascii.eqb c "-" || Ascii.eqb c "_".

Fixpoint lstrip (l : list ascii) : list ascii :=
  match l with
  | [] => []
  | c :: rest => if strip_char c then lstrip rest else l
  end.

(** [s.strip('-_')]. *)
Definition strip_dash_underscore (s : string) : string :=
  string_of_list_ascii (rev (lstrip (rev (lstrip (list_ascii_of_string s))))).

Definition slugify (value : string) : string :=
  strip_dash_underscore (collapse_dashes false (keep_slug_chars (lower value))).

Inductive status := Draft | Published.

Definition status_eqb (a b : status) : bool :=
  match a, b with
  | Draft, Draft | Published, Published => true
  | _, _ => false
  end.

(** A [BlogPost] row; timestamps are integers, [pk] is [None] before the
    first insert. *)
Record BlogPost := mkPost {
  pk : option nat;
  title : string;
  slug : string;
  meta_description : string;
  content : json;
  author : string;
  category : string;
  tags : string;
  status_of : status;
  is_featured : bool;
  published_at : option Z;
  created_at : option Z;
  updated_at : option Z;
  reading_time : nat;
  views_count : nat
}.

Definition set_slug (s : string) (p : BlogPost) : BlogPost :=
  mkPost p.(pk) p.(title) s p.(meta_description) p.(content) p.(author)
    p.(category) p.(tags) p.(status_of) p.(is_featured) p.(published_at)
    p.(created_at) p.(updated_at) p.(reading_time) p.(views_count).

Definition set_status (st : status) (p : BlogPost) : BlogPost :=
  mkPost p.(pk) p.(title) p.(slug) p.(meta_description) p.(content) p.(author)
    p.(category) p.(tags) st p.(is_featured) p.(published_at)
    p.(created_at) p.(updated_at) p.(reading_time) p.(views_count).

Definition set_published_at (t : option Z) (p : BlogPost) : BlogPost :=
  mkPost p.(pk) p.(title) p.(slug) p.(meta_description) p.(content) p.(author)
    p.(category) p.(tags) p.(status_of) p.(is_featured) t
    p.(created_at) p.(updated_at) p.(reading_time) p.(views_count).

Definition set_reading_time (n : nat) (p : BlogPost) : BlogPost :=
  mkPost p.(pk) p.(title) p.(slug) p.(meta_description) p.(content) p.(author)
    p.(category) p.(tags) p.(status_of) p.(is_featured) p.(published_at)
    p.(created_at) p.(updated_at) n p.(views_count).

Definition set_views (n : nat) (p : BlogPost) : BlogPost :=
  mkPost p.(pk) p.(title) p.(slug) p.(meta_description) p.(content) p.(author)
    p.(category) p.(tags) p.(status_of) p.(is_featured) p.(published_at)
    p.(created_at) p.(updated_at) p.(reading_time) n.

Definition set_ids (id : option nat) (created updated : option Z) (p : BlogPost) : BlogPost :=
  mkPost id p.(title) p.(slug) p.(meta_description) p.(content) p.(author)
    p.(category) p.(tags) p.(status_of) p.(is_featured) p.(published_at)
    created updated p.(reading_time) p.(views_count).

(** A new, unsaved post with the model's defaults. *)
Definition new_post (t : string) : BlogPost :=
  mkPost None t EmptyString EmptyString JNull "Admin" "news" EmptyString
    Draft false None None None 0 0.

(** The [blog_post] table. *)
Definition store := list BlogPost.

(** [.exclude(pk=self.pk)]: with [self.pk] unset nothing is excluded. *)
Definition same_pk (a b : option nat) : bool :=
  match a, b with
  | Some x, Some y => Nat.eqb x y
  | _, _ => false
  end.

(** [BlogPost.objects.filter(slug=s).exclude(pk=self_pk).exists()]. *)
Definition slug_taken (db : store) (self_pk : option nat) (s : string) : bool :=
  existsb (fun q => String.eqb q.(slug) s && negb (same_pk q.(pk) self_pk)) db.

(** The [while] loop of [save]: [counter] is the next suffix to try.  The
    fuel [S (length db)] never runs out (see [unique_slug_free]). *)
Fixpoint unique_slug_go (fuel : nat) (taken : string -> bool) (original cur : string)
    (counter : nat) : string :=
  match fuel with
  | 0 => cur
  | S f =>
      if taken cur
      then unique_slug_go f taken original (original ++ "-" ++ string_of_nat counter) (S counter)
      else cur
  end.

(** The [k]-th slug the loop tries: the base slug, then [base-1], [base-2], ... *)
Definition candidate (base : string) (k : nat) : string :=
  match k with
  | 0 => base
  | S _ => base ++ "-" ++ string_of_nat k
  end.

(** First step of [BlogPost.save]: generate a unique slug when none is set. *)
Definition assign_slug (db : store) (p : BlogPost) : BlogPost :=
  if String.eqb p.(slug) EmptyString then
    let original := slugify p.(title) in
    set_slug (unique_slug_go (S (List.length db)) (slug_taken db p.(pk)) original original 1) p
  else p.

(** Second step: stamp [published_at] on a published post without one. *)
Definition stamp_published (now : Z) (p : BlogPost) : BlogPost :=
  match p.(status_of), p.(published_at) with
  | Published, None => set_published_at (Some now) p
  | _, _ => p
  end.

(** The [published_at] that [stamp_published] leaves. *)
Definition stamped (now : Z) (p : BlogPost) : option Z :=
  match p.(status_of), p.(published_at) with
  | Published, None => Some now
  | _, x => x
  end.

(** [BlogPost.save] up to the database write: slug, [published_at] and
    [reading_time], in that order, on the in-memory instance. *)
Definition save_fields (now : Z) (db : store) (p : BlogPost) : result BlogPost :=
  let p1 := stamp_published now (assign_slug db p) in
  rt <- calculate_reading_time p1.(content) ;;
  Ok (set_reading_time rt p1).

Definition max_pk (db : store) : nat :=
  fold_right (fun q m => match q.(pk) with Some n => Nat.max n m | None => m end) 0 db.

(** Replace the row with the same primary key. *)
Definition update_row (p : BlogPost) (db : store) : store :=
  map (fun q => if same_pk q.(pk) p.(pk) then p else q) db.

(** A full [save()]: insert (with a fresh id and [created_at]) or update all
    columns; [updated_at] is [auto_now]. *)
Definition save (now : Z) (db : store) (p : BlogPost) : result (BlogPost * store) :=
  p' <- save_fields now db p ;;
  match p'.(pk) with
  | None =>
      let row := set_ids (Some (S (max_pk db))) (Some now) (Some now) p' in
      Ok (row, app db [row])
  | Some _ =>
      let row := set_ids p'.(pk) p'.(created_at) (Some now) p' in
      Ok (row, update_row row db)
  end.

End Posts.

(** ** The blog viewset ([blogs/views.py]) *)

Module Views.
Import Py Derive Posts.

(** [get_queryset]: drafts are hidden unless [include_drafts] (default
    ['false']) lowercases to ['true']. *)
Definition include_drafts (param : option string) : bool :=
  match param with
  | Some v => String.eqb (lower v) "true"
  | None => false
  end.

Definition visible (param : option string) (p : BlogPost) : bool :=
  include_drafts param || status_eqb p.(status_of) Published.

Definition queryset (param : option string) (db : store) : list BlogPost :=
  filter (visible param) db.

(** [get_object]: the visible post with the given slug, or a 404. *)
Definition get_object (param : option string) (s : string) (db : store) : option BlogPost :=
  find (fun p => String.eqb p.(slug) s) (queryset param db).

(** [save(update_fields=['views_count'])]: the whole in-memory [save]
    pipeline runs, but only the [views_count] column is written. *)
Definition write_views (p : BlogPost) (db : store) : store :=
  map (fun q => if same_pk q.(pk) p.(pk) then set_views p.(views_count) q else q) db.

(** [BlogPost.increment_views]. *)
Definition increment_views (now : Z) (db : store) (p : BlogPost) : result store :=
  let p1 := set_views (S p.(views_count)) p in
  p2 <- save_fields now db p1 ;;
  Ok (write_views p2 db).

(** A response status code and the table after the request; an exception
    escaping the view is a 500. *)
Definition response := (nat * store)%type.

(** The request's filter, search and ordering parameters as DRF's
    [filter_queryset] applies them to the default queryset
    ([DjangoFilterBackend] on [status], [category], [is_featured] and
    [author], then [SearchFilter] on [title], [meta_description], [tags]
    and [author], then [OrderingFilter]): the rows kept, in their order, or
    [None] when a parameter fails validation, which DRF answers with a 400. *)
Definition query_filter := list BlogPost -> option (list BlogPost).

(** No filter, search or ordering parameter. *)
Definition no_filter : query_filter := fun qs => Some qs.

(** [?status=v]: an exact match on one of the choices; the empty value is
    ignored and any other value fails validation. *)
Definition status_filter (v : string) : query_filter := fun qs =>
  if String.eqb v "draft" then Some (filter (fun p => status_eqb p.(status_of) Draft) qs)
  else if String.eqb v "published" then Some (filter (fun p => status_eqb p.(status_of) Published) qs)
  else if String.eqb v EmptyString then Some qs
  else None.

(** [needle in hay]. *)
Fixpoint has_substring (needle hay : string) : bool :=
  String.prefix needle hay ||
  match hay with
  | EmptyString => false
  | String _ rest => has_substring needle rest
  end.

(** [?search=term] with a single term: a case-insensitive substring match on
    one of the search fields. *)
Definition search_filter (term : string) : query_filter := fun qs =>
  Some (filter (fun p => existsb (fun f => has_substring (lower term) (lower f))
                                 [p.(title); p.(meta_description); p.(tags); p.(author)]) qs).

(** The outcome of DRF's [get_object] on the filtered queryset. *)
Inductive lookup := Found (p : BlogPost) | NotFound | BadQuery.

(** [GenericAPIView.get_object]: [filter_queryset(get_queryset())], then the
    row with the given slug, or a 404. *)
Definition get_filtered_object (flt : query_filter) (param : option string) (s : string)
    (db : store) : lookup :=
  match flt (queryset param db) with
  | None => BadQuery
  | Some qs =>
      match find (fun p => String.eqb p.(slug) s) qs with
      | Some p => Found p
      | None => NotFound
      end
  end.

(** [BlogPostViewSet.retrieve]. *)
Definition retrieve (flt : query_filter) (now : Z) (param : option string) (s : string)
    (db : store) : response :=
  match get_filtered_object flt param s db with
  | BadQuery => (400, db)
  | NotFound => (404, db)
  | Found p =>
      match increment_views now db p with
      | Ok db' => (200, db')
      | Raise _ => (500, db)
      end
  end.

(** [BlogPostViewSet.publish]. *)
Definition publish (now : Z) (param : option string) (s : string) (db : store) : response :=
  match get_object param s db with
  | None => (404, db)
  | Some p =>
      if status_eqb p.(status_of) Published then (400, db)
      else
        let p1 := set_status Published p in
        let p2 := match p1.(published_at) with
                  | None => set_published_at (Some now) p1
                  | Some _ => p1
                  end in
        match save now db p2 with
        | Ok (_, db') => (200, db')
        | Raise _ => (500, db)
        end
  end.

(** [BlogPostViewSet.unpublish]. *)
Definition unpublish (now : Z) (param : option string) (s : string) (db : store) : response :=
  match get_object param s db with
  | None => (404, db)
  | Some p =>
      if status_eqb p.(status_of) Draft then (400, db)
      else
        match save now db (set_status Draft p) with
        | Ok (_, db') => (200, db')
        | Raise _ => (500, db)
        end
  end.


(** [int(s)] on a query-string value: surrounding whitespace, an optional
    sign, decimal digits with single underscores between digits. *)
Definition is_digit (c : ascii) : bool :=
  Nat.leb 48 (nat_of_ascii c) && Nat.leb (nat_of_ascii c) 57.

Fixpoint digits_go (acc : Z) (prev_digit : bool) (l : list ascii) : option Z :=
  match l with
  | [] => if prev_digit then Some acc else None
  | c :: rest =>
      if is_digit c then
        digits_go (acc * 10 + Z.of_nat (nat_of_ascii c - 48)) true rest
      else if Ascii.eqb c "_" && prev_digit then digits_go acc false rest
      else None
  end.

Fixpoint drop_spaces (l : list ascii) : list ascii :=
  match l with
  | [] => []
  | c :: rest => if is_space c then drop_spaces rest else l
  end.

Definition int_of_string (s : string) : option Z :=
  let l := rev (drop_spaces (rev (drop_spaces (list_ascii_of_string s)))) in
  match l with
  | c :: rest =>
      if Ascii.eqb c "+" then digits_go 0 false rest
      else if Ascii.eqb c "-" then option_map Z.opp (digits_go 0 false rest)
      else digits_go 0 false l
  | [] => None
  end.

(** The sanitised [limit] of [latest]. *)
Definition latest_limit (param : option string) : Z :=
  match param with
  | None => 5
  | Some s =>
      match int_of_string s with
      | Some z => if Z.leb z 0 then 5 else z
      | None => 5
      end
  end.






End Views.

(** ** SEO records ([seo/models.py]) *)

Module Seo.

(** The text columns of an [SEOTag] row ([schema] and the timestamps are
    carried unchanged by [save] and left out). *)
Record SEOTag := mkTag {
  page_id : string;
  page_path : string;
  page_name : string;
  page_title : string;
  meta_description : string;
  meta_keywords : string;
  canonical_url : string;
  robots_meta : string;
  og_title : string;
  og_description : string;
  og_type : string;
  og_url : string;
  og_image_url : string;
  og_image_alt : string;
  twitter_card : string;
  twitter_title : string;
  twitter_description : string;
  twitter_image_url : string;
  created_by : string;
  updated_by : string
}.

(** [x if x else default] for a [CharField] value. *)
Definition or_default (x default : string) : string :=
  if String.eqb x EmptyString then default else x.

(** The field defaulting of [SEOTag.save], in the order of the source: the
    Open Graph fields first, then the Twitter fields from the (already
    defaulted) Open Graph ones. *)
Definition save_defaults (t : SEOTag) : SEOTag :=
  let og_t := or_default t.(og_title) t.(page_title) in
  let og_d := or_default t.(og_description) t.(meta_description) in
  let og_u := or_default t.(og_url) ("https://www.evall.in" ++ t.(page_path)) in
  let tw_t := or_default t.(twitter_title) og_t in
  let tw_d := or_default t.(twitter_description) og_d in
  let tw_i := or_default t.(twitter_image_url) t.(og_image_url) in
  mkTag t.(page_id) t.(page_path) t.(page_name) t.(page_title) t.(meta_description)
    t.(meta_keywords) t.(canonical_url) t.(robots_meta) og_t og_d t.(og_type) og_u
    t.(og_image_url) t.(og_image_alt) t.(twitter_card) tw_t tw_d tw_i
    t.(created_by) t.(updated_by).

(** The text columns of the [AdvancedSEO] row. *)
Record AdvancedSettings := mkSettings {
  google_site_verification : string;
  header_script : string;
  footer_script : string;
  settings_updated_by : string
}.

(** An in-memory [AdvancedSEO] instance. *)
Record AdvancedSEO := mkAdvanced {
  adv_pk : option nat;
  settings : AdvancedSettings
}.

(** The [AdvancedSEO] table: rows keyed by primary key. *)
Definition table := list (nat * AdvancedSettings).

Definition has_pk (k : nat) (tbl : table) : bool :=
  existsb (fun row => Nat.eqb (fst row) k) tbl.

(** Django's row write for an instance with primary key [k]: with
    [force_insert] an INSERT that fails on an existing key; otherwise an
    UPDATE of row [k], or an INSERT when there is none. *)
Definition write_row (force_insert : bool) (k : nat) (s : AdvancedSettings)
    (tbl : table) : option table :=
  if has_pk k tbl then
    if force_insert then None
    else Some (map (fun row => if Nat.eqb (fst row) k then (k, s) else row) tbl)
  else Some (app tbl [(k, s)]).

(** [AdvancedSEO.save]: forces [pk = 1] before writing; [None] is the
    [IntegrityError] of a forced insert on an existing row. *)
Definition advanced_save (force_insert : bool) (inst : AdvancedSEO) (tbl : table)
    : option table :=
  write_row force_insert 1 inst.(settings) tbl.

(** [AdvancedSEO.delete]: does nothing. *)
Definition advanced_delete (inst : AdvancedSEO) (tbl : table) : table := tbl.

Definition empty_settings : AdvancedSettings :=
  mkSettings EmptyString EmptyString EmptyString EmptyString.

(** [AdvancedSEO.load]: [get_or_create(pk=1)]. *)
Definition advanced_load (tbl : table) : table :=
  if has_pk 1 tbl then tbl
  else match advanced_save true (mkAdvanced (Some 1) empty_settings) tbl with
       | Some tbl' => tbl'
       | None => tbl
       end.

(** The operations the code performs on the settings table. *)
Inductive op :=
| Save (force_insert : bool) (inst : AdvancedSEO)
| Delete (inst : AdvancedSEO)
| Load.

Definition step (o : op) (tbl : table) : table :=
  match o with
  | Save fi inst =>
      match advanced_save fi inst tbl with
      | Some tbl' => tbl'
      | None => tbl
      end
  | Delete inst => advanced_delete inst tbl
  | Load => advanced_load tbl
  end.

(** The table holds at most one row, and its key is 1. *)
Definition singleton_table (tbl : table) : Prop :=
  List.length tbl <= 1 /\ forall row, In row tbl -> fst row = 1.

(** The columns of an [SEOTag]. *)
Definition tag_fields : list (SEOTag -> string) :=
  [page_id; page_path; page_name; page_title; meta_description; meta_keywords;
   canonical_url; robots_meta; og_title; og_description; og_type; og_url;
   og_image_url; og_image_alt; twitter_card; twitter_title; twitter_description;
   twitter_image_url; created_by; updated_by].

Definition run (ops : list op) (tbl : table) : table := fold_left (fun t o => step o t) ops tbl.

End Seo.

(** ** Tag lists ([BlogPost.get_tag_list]) *)

Module Tags.
Import Py Views.

(** [s.split(sep)]: the pieces between separators, empty pieces included;
    [cur] is the piece read so far. *)
Fixpoint split_on (sep : ascii) (cur : string) (s : string) : list string :=
  match s with
  | EmptyString => [cur]
  | String c rest =>
      if Ascii.eqb c sep then cur :: split_on sep EmptyString rest
      else split_on sep (cur ++ String c EmptyString) rest
  end.

(** [s.strip()]: whitespace removed at both ends. *)
Definition strip (s : string) : string :=
  string_of_list_ascii (rev (drop_spaces (rev (drop_spaces (list_ascii_of_string s))))).

(** [BlogPost.get_tag_list], on [self.tags]. *)
Definition get_tag_list (tags : string) : list string :=
  if String.eqb tags EmptyString then []
  else map strip (filter (fun tag => negb (String.eqb (strip tag) EmptyString))
                    (split_on "," EmptyString tags)).

(** A character list that does not start with whitespace. *)
Definition head_ok (l : list ascii) : Prop :=
  match l with [] => True | c :: _ => is_space c = false end.

(** The characters [strip] keeps, as a list. *)
Definition strip_list (l : list ascii) : list ascii :=
  rev (drop_spaces (rev (drop_spaces l))).

End Tags.

(** ** Creating a post through [BlogPostWriteSerializer] ([blogs/serializers.py]) *)

Module Writes.
Import Py Derive Posts Views.

(** The characters of Django's [validate_slug], [^[-a-zA-Z0-9_]+\Z]. *)
Definition is_slug_char (c : ascii) : bool := is_word_char c || Ascii.eqb c "-".

(** The checks of the serializer's [SlugField(max_length=280)] on a given
    slug: not blank, at most 280 characters, slug characters only. *)
Definition slug_field_ok (s : string) : bool :=
  negb (String.eqb s EmptyString) && Nat.leb (String.length s) 280
  && forallb is_slug_char (list_ascii_of_string s).

(** [BlogPostWriteSerializer.validate_slug] without an instance (create):
    the slug must not be held by any post. *)
Definition validate_slug_create (db : store) (value : string) : bool :=
  negb (existsb (fun q => String.eqb q.(slug) value) db).

(** [POST /api/blogs/]: the slug is optional; when it is given it is
    validated, when it is omitted the model default [''] is used and [save]
    generates one.  [serializer.save()] creates the row ([objects.create],
    i.e. [save(force_insert=True)] on a new instance).  The serializer's
    checks of the other fields are not modelled: they only turn more
    requests into a 400. *)
Definition create (now : Z) (db : store) (slug_param : option string) (p : BlogPost)
    : response :=
  let valid := match slug_param with
               | Some s => slug_field_ok s && validate_slug_create db s
               | None => true
               end in
  let inst := set_slug (match slug_param with Some s => s | None => EmptyString end)
                (set_ids None None None p) in
  if negb valid then (400, db)
  else
    match save now db inst with
    | Ok (_, db') => (201, db')
    | Raise _ => (500, db)
    end.

End Writes.

(** ** Bulk actions of [BlogPostAdmin] ([blogs/admin.py]) *)

Module Admin.
Import Py Derive Posts.

Definition set_featured (b : bool) (p : BlogPost) : BlogPost :=
  mkPost p.(pk) p.(title) p.(slug) p.(meta_description) p.(content) p.(author)
    p.(category) p.(tags) p.(status_of) b p.(published_at)
    p.(created_at) p.(updated_at) p.(reading_time) p.(views_count).

(** The action's [queryset]: the rows whose primary keys were ticked. *)
Definition selected (sel : list nat) (p : BlogPost) : bool :=
  match p.(pk) with
  | Some k => existsb (Nat.eqb k) sel
  | None => false
  end.

(** [qs.update(...)] on the rows satisfying [hit]: one SQL UPDATE, no
    [save()] (so no slug, reading time or [auto_now] handling); it returns
    the number of rows matched. *)
Definition update_where (hit : BlogPost -> bool) (f : BlogPost -> BlogPost) (db : store)
    : nat * store :=
  (List.length (filter hit db), map (fun p => if hit p then f p else p) db).

(** [BlogPostAdmin.unpublish_posts]: the reported count and the table. *)
Definition unpublish_posts (sel : list nat) (db : store) : nat * store :=
  update_where (fun p => selected sel p && status_eqb p.(status_of) Published)
    (set_status Draft) db.

(** [BlogPostAdmin.mark_as_featured]. *)
Definition mark_as_featured (sel : list nat) (db : store) : nat * store :=
  update_where (selected sel) (set_featured true) db.

(** [BlogPostAdmin.unmark_as_featured]. *)
Definition unmark_as_featured (sel : list nat) (db : store) : nat * store :=
  update_where (selected sel) (set_featured false) db.

(** The loop of [publish_posts] over the posts the query returned:
    [now i] is the clock read while handling the [i]-th post.  An exception
    ends the action; the rows saved before it stay written. *)
Fixpoint publish_loop (now : nat -> Z) (posts : list BlogPost) (updated : nat) (db : store)
    : store * result nat :=
  match posts with
  | [] => (db, Ok updated)
  | post :: rest =>
      let p1 := set_status Published post in
      let p2 := match p1.(published_at) with
                | None => set_published_at (Some (now updated)) p1
                | Some _ => p1
                end in
      match save (now updated) db p2 with
      | Ok (_, db') => publish_loop now rest (S updated) db'
      | Raise e => (db, Raise e)
      end
  end.

(** [BlogPostAdmin.publish_posts]: the drafts among the selected rows, each
    published and saved in turn (here in table order); the result is the
    table and the count [updated] that the message reports. *)
Definition publish_posts (now : nat -> Z) (sel : list nat) (db : store)
    : store * result nat :=
  publish_loop now (filter (fun p => selected sel p && status_eqb p.(status_of) Draft) db) 0 db.

End Admin.

(** ** SEO tag writes and the advanced settings endpoints ([seo/serializers.py],
    [seo/views.py], [seo/admin.py]) *)

Module SeoWrites.
Import Py Seo Tags.

Definition set_created_by (u : string) (t : SEOTag) : SEOTag :=
  mkTag t.(page_id) t.(page_path) t.(page_name) t.(page_title) t.(meta_description)
    t.(meta_keywords) t.(canonical_url) t.(robots_meta) t.(og_title) t.(og_description)
    t.(og_type) t.(og_url) t.(og_image_url) t.(og_image_alt) t.(twitter_card)
    t.(twitter_title) t.(twitter_description) t.(twitter_image_url) u t.(updated_by).

Definition set_updated_by (u : string) (t : SEOTag) : SEOTag :=
  mkTag t.(page_id) t.(page_path) t.(page_name) t.(page_title) t.(meta_description)
    t.(meta_keywords) t.(canonical_url) t.(robots_meta) t.(og_title) t.(og_description)
    t.(og_type) t.(og_url) t.(og_image_url) t.(og_image_alt) t.(twitter_card)
    t.(twitter_title) t.(twitter_description) t.(twitter_image_url) t.(created_by) u.

(** [request.user.username if request.user.is_authenticated else '']:
    [None] is an anonymous user. *)
Definition username_or_empty (user : option string) : string :=
  match user with Some u => u | None => EmptyString end.

(** The [SEOTag] table: rows keyed by primary key. *)
Definition tag_table := list (nat * SEOTag).

(** [SEOTag.objects.filter(page_id=value)], with [.exclude(pk=self)] when
    there is an instance. *)
Definition page_id_taken (tbl : tag_table) (self : option nat) (value : string) : bool :=
  existsb (fun row => String.eqb (snd row).(page_id) value
                      && negb (match self with Some k => Nat.eqb (fst row) k | None => false end))
    tbl.

(** [SEOTagWriteSerializer.validate_page_title]. *)
Definition validate_page_title (value : string) : bool := Nat.leb (String.length value) 70.

(** [SEOTagWriteSerializer.validate_meta_description]. *)
Definition validate_meta_description (value : string) : bool :=
  Nat.leb (String.length value) 160.

(** The three [validate_*] methods of [SEOTagWriteSerializer]; the field
    checks generated from the model are not modelled (they only reject more
    requests). *)
Definition tag_valid (tbl : tag_table) (self : option nat) (t : SEOTag) : bool :=
  negb (page_id_taken tbl self t.(page_id))
  && validate_page_title t.(page_title) && validate_meta_description t.(meta_description).

Definition max_key (tbl : tag_table) : nat := fold_right (fun row m => Nat.max (fst row) m) 0 tbl.

(** [POST /api/seo/]: validation, [perform_create] ([created_by]; the
    serializer does not write [updated_by], which keeps its default ['']),
    [SEOTag.save] and the INSERT. *)
Definition create_tag (user : option string) (tbl : tag_table) (t : SEOTag)
    : nat * tag_table :=
  if tag_valid tbl None t then
    let t1 := set_updated_by EmptyString (set_created_by (username_or_empty user) t) in
    (201, app tbl [(S (max_key tbl), save_defaults t1)])
  else (400, tbl).

(** [PUT /api/seo/{page_id}/] on the row with key [k], with the submitted
    values [t]: validation excluding the row itself, [perform_update]
    ([updated_by]; [created_by] is not a serializer field and keeps its
    stored value), [SEOTag.save] and the UPDATE. *)
Definition update_tag (user : option string) (tbl : tag_table) (k : nat) (t : SEOTag)
    : nat * tag_table :=
  match find (fun row => Nat.eqb (fst row) k) tbl with
  | None => (404, tbl)
  | Some (_, old) =>
      if tag_valid tbl (Some k) t then
        let t1 := set_updated_by (username_or_empty user) (set_created_by old.(created_by) t) in
        (200, map (fun row => if Nat.eqb (fst row) k then (k, save_defaults t1) else row) tbl)
      else (400, tbl)
  end.

(** The settings of the row with key 1 (the instance [load] returns). *)
Definition settings_of (tbl : table) : AdvancedSettings :=
  match find (fun row => Nat.eqb (fst row) 1) tbl with
  | Some row => snd row
  | None => empty_settings
  end.

(** [AdvancedSEOSerializer(instance).data] without the read-only [id]
    (always 1) and the timestamps: [updated_by] is not among its fields. *)
Record settings_data := mkData {
  data_google_site_verification : string;
  data_header_script : string;
  data_footer_script : string
}.

Definition serialize_settings (s : AdvancedSettings) : settings_data :=
  mkData s.(google_site_verification) s.(header_script) s.(footer_script).

(** [AdvancedSEOViewSet.list]: the serialized settings, and the table. *)
Definition advanced_list (tbl : table) : settings_data * table :=
  let t := advanced_load tbl in (serialize_settings (settings_of t), t).

(** The submitted fields of a PUT or PATCH on [/api/seo/advanced/], as
    parsed JSON; the three [TextField(blank=True)] are optional in the
    serializer, so an omitted field ([None]) keeps its value in both. *)
Record settings_input := mkInput {
  in_google_site_verification : option json;
  in_header_script : option json;
  in_footer_script : option json
}.

(** [CharField.run_validation] of a serializer field generated from a
    [TextField(blank=True)] ([allow_blank], not [allow_null],
    [trim_whitespace]): [None] (and null) is rejected, so are a boolean and
    any value that is not a string or a number; otherwise [str(data).strip()],
    rejected by [ProhibitNullCharactersValidator] when it holds a NUL. *)
Definition char_field (v : json) : option string :=
  match v with
  | JStr s =>
      let value := strip s in
      if has_char (ascii_of_nat 0) value then None else Some value
  | JNum z => Some (string_of_Z z)
  | _ => None
  end.

Definition field_ok (o : option json) : bool :=
  match o with
  | Some v => match char_field v with Some _ => true | None => false end
  | None => true
  end.

(** [serializer.is_valid()]. *)
Definition input_valid (d : settings_input) : bool :=
  field_ok d.(in_google_site_verification) && field_ok d.(in_header_script)
  && field_ok d.(in_footer_script).

(** The value a field takes: the validated submitted value, if any. *)
Definition opt_or (o : option json) (x : string) : string :=
  match o with
  | Some v => match char_field v with Some s => s | None => x end
  | None => x
  end.

(** [serializer.save(updated_by=...)] on the loaded instance. *)
Definition apply_input (d : settings_input) (user : option string) (s : AdvancedSettings)
    : AdvancedSettings :=
  mkSettings (opt_or d.(in_google_site_verification) s.(google_site_verification))
    (opt_or d.(in_header_script) s.(header_script))
    (opt_or d.(in_footer_script) s.(footer_script))
    (username_or_empty user).

(** [AdvancedSEOViewSet.update] / [partial_update]: the response data
    ([None] for the 400 with the serializer's errors) and the table. *)
Definition advanced_update (d : settings_input) (user : option string) (tbl : table)
    : option settings_data * table :=
  let t := advanced_load tbl in
  if input_valid d then
    let s := apply_input d user (settings_of t) in
    match advanced_save false (mkAdvanced (Some 1) s) t with
    | Some t' => (Some (serialize_settings s), t')
    | None => (Some (serialize_settings s), t)
    end
  else (None, t).

(** [AdvancedSEOAdmin.has_add_permission]: [not AdvancedSEO.objects.exists()]. *)
Definition has_add_permission (tbl : table) : bool :=
  match tbl with [] => true | _ => false end.

End SeoWrites.

(** ** Sample documents *)

Module Samples.
Import Py Blocks.

(** The worked scenario of the spec: a header and a two-item list. *)
Definition scenario_doc : json :=
  JObj [("blocks", JArr [
    tagged "header" [("data", JObj [("text", JStr "Intro")])];
    tagged "list" [("data", JObj [("items", JArr [JStr "one two three"; JStr "four five"])])]])].

(** A [Header] block and a [Paragraph] block of 400 words each. *)
Definition c1_doc : json :=
  JObj [("blocks", JArr [
    tagged "Header" [("data", JObj [("text", JStr (many_words 400))])];
    tagged "Paragraph" [("data", JObj [("text", JStr (many_words 400))])]])].

(** Two posts titled "Hello World" created one after the other. *)
Definition hello_db1 : Posts.store :=
  match Posts.save 1 [] (Posts.new_post "Hello World") with
  | Ok (_, db) => db
  | Raise _ => []
  end.

Definition hello_db2 : Posts.store :=
  match Posts.save 2 hello_db1 (Posts.new_post "Hello World") with
  | Ok (_, db) => db
  | Raise _ => hello_db1
  end.

(** A table holding one draft, slug "draft", viewed 0 times. *)
Definition draft_db : Posts.store :=
  [Posts.mkPost (Some 1) "Draft" "draft" EmptyString JNull "Admin" "news" EmptyString
     Posts.Draft false None (Some 0%Z) (Some 0%Z) 1 0].

(** A table holding one published post, slug "ev-news", viewed 3 times. *)
Definition published_db : Posts.store :=
  [Posts.mkPost (Some 1) "EV news" "ev-news" EmptyString JNull "Admin" "news" EmptyString
     Posts.Published false (Some 10%Z) (Some 0%Z) (Some 0%Z) 1 3].

(** A new post whose document has a header and a marked-up paragraph. *)
Definition excerpt_post : Posts.BlogPost :=
  Posts.mkPost None "Charging" EmptyString EmptyString
    (JObj [("blocks", JArr [
       tagged "header" [("data", JObj [("text", JStr "Intro")])];
       tagged "paragraph" [("data", JObj [("text", JStr "<b>Fast</b> charging")])]])])
    "Admin" "news" EmptyString Posts.Draft false None None None 0 0.

(** The row and the table the first save of [excerpt_post] leaves. *)
Definition excerpt_saved : Posts.BlogPost * Posts.store :=
  match Posts.save 1 [] excerpt_post with
  | Ok r => r
  | Raise _ => (excerpt_post, [])
  end.

End Samples.

(** ** Sample inputs of the write paths *)

Module ExtraSamples.
Import Py Blocks Seo.

(** A tag field as typed in the admin: padded, with an empty entry. *)
Definition sample_tags : string := " tesla, charging ,, battery ".

(** One [paragraph] block of 150 words (300 characters). *)
Definition long_paragraph_doc : json :=
  JObj [("blocks", JArr [
    tagged "paragraph" [("data", JObj [("text", JStr (many_words 150))])]])].

(** A header block and a paragraph block of 400 words. *)
Definition header_block : json := tagged "header" [("data", JObj [("text", JStr "Intro")])].

Definition long_block : json :=
  tagged "paragraph" [("data", JObj [("text", JStr (many_words 400))])].

(** An [SEOTag] row for page [pid] at [path]. *)
Definition seo_row (pid path : string) : SEOTag :=
  mkTag pid path "Page" "Title" "Description" EmptyString EmptyString "index, follow"
    EmptyString EmptyString "website" EmptyString EmptyString EmptyString "summary_large_image"
    EmptyString EmptyString EmptyString "admin" EmptyString.

Definition seo_table : SeoWrites.tag_table := [(1, seo_row "home" "/"); (2, seo_row "about" "/about")].

End ExtraSamples.

(** * Properties *)

(** ** Reading time and excerpt *)

Module DeriveFacts.
Import Py Derive Blocks SpecReadingTime.

Lemma dict_get_app (l1 l2 : list (string * json)) (k : string) :
  dict_get (l1 ++ l2) k =
  match dict_get l1 k with Some v => Some v | None => dict_get l2 k end.
Proof.
  induction l1 as [|[k' v] l1 IH]; simpl; [reflexivity|].
  destruct (String.eqb k k'); [reflexivity|exact IH].
Qed.

Lemma text_list_disjoint (b : json) :
  is_text_block b = true -> is_list_block b = false.
Proof.
  unfold is_text_block, is_list_block, kind_in.
  destruct (block_tag b) as [[]|]; try discriminate.
  simpl. intros H.
  repeat (apply orb_true_iff in H; destruct H as [H|H]);
    try discriminate; apply String.eqb_eq in H; subst; reflexivity.
Qed.

Lemma block_words_well_formed (b : json) :
  well_formed_block b = true -> block_words b = Ok (contribution b).
Proof.
  destruct b as [| | | | |kvs]; try discriminate.
  unfold well_formed_block, contribution, block_words.
  unfold is_text_block, is_list_block, block_tag.
  destruct (kind_in (dict_get kvs "type") text_kinds).
  - unfold text_data_ok, text_block_words, block_data, get. simpl.
    destruct (dict_get kvs "data") as [[| | | | |d]|]; try discriminate; simpl.
    + destruct (dict_get d "text") as [[]|]; try discriminate; reflexivity.
    + reflexivity.
  - destruct (kind_in (dict_get kvs "type") list_kinds); [|reflexivity].
    unfold list_data_ok, list_block_words, block_data, get. simpl.
    destruct (dict_get kvs "data") as [[| | | | |d]|]; try discriminate; simpl.
    + destruct (dict_get d "items") as [[]|]; try discriminate; reflexivity.
    + reflexivity.
Qed.

Lemma blocks_words_well_formed (bs : list json) :
  forallb well_formed_block bs = true ->
  blocks_words bs = Ok (list_sum (map contribution bs)).
Proof.
  induction bs as [|b bs IH]; simpl; [reflexivity|].
  intros H. apply andb_true_iff in H as [Hb Hbs].
  rewrite (block_words_well_formed b Hb). simpl.
  rewrite (IH Hbs). reflexivity.
Qed.

Lemma sum_filters (bs : list json) :
  list_sum (map text_block_words (filter is_text_block bs))
  + list_sum (map list_block_words (filter is_list_block bs))
  = list_sum (map contribution bs).
Proof.
  induction bs as [|b bs IH]; simpl; [reflexivity|].
  unfold contribution at 1.
  destruct (is_text_block b) eqn:Ht.
  - rewrite (text_list_disjoint b Ht). simpl. lia.
  - destruct (is_list_block b); simpl; lia.
Qed.

Lemma blocks_words_app (pre post : list json) (b1 b2 : json) :
  block_words b1 = block_words b2 ->
  blocks_words (pre ++ b1 :: post) = blocks_words (pre ++ b2 :: post).
Proof.
  intros Hb. induction pre as [|a pre IH]; simpl.
  - rewrite Hb. reflexivity.
  - rewrite IH. reflexivity.
Qed.

Lemma first_paragraph_app (pre post : list json) (b1 b2 : json) :
  first_paragraph (b1 :: post) = first_paragraph (b2 :: post) ->
  first_paragraph (pre ++ b1 :: post) = first_paragraph (pre ++ b2 :: post).
Proof.
  intros Hb. induction pre as [|a pre IH]; simpl; [exact Hb|].
  destruct a as [| | | | |kvs]; try reflexivity.
  destruct (dict_get kvs "type") as [[| | | s | |]|]; try exact IH.
  repeat match goal with
         | |- context [match ?s with EmptyString => _ | String _ _ => _ end] =>
             destruct s; try exact IH
         | |- context [match ?c with Ascii _ _ _ _ _ _ _ _ => _ end] =>
             destruct c
         | |- context [if ?b then _ else _] => destruct b; try exact IH
         end; reflexivity.
Qed.

Lemma variant_cases (t1 t2 : string) :
  same_kind_variant t1 t2 = true ->
  t1 = t2 \/
  ((t1 = "header" \/ t1 = "Header") /\ (t2 = "header" \/ t2 = "Header")) \/
  ((t1 = "list" \/ t1 = "List") /\ (t2 = "list" \/ t2 = "List")).
Proof.
  unfold same_kind_variant. simpl. rewrite !orb_false_r.
  intros H.
  repeat match goal with
         | H : _ || _ = true |- _ => apply orb_true_iff in H; destruct H as [H|H]
         | H : _ && _ = true |- _ => apply andb_true_iff in H; destruct H
         | H : String.eqb _ _ = true |- _ => apply String.eqb_eq in H
         end; subst; tauto.
Qed.

Lemma variant_block_words (t1 t2 : string) (kvs : list (string * json)) :
  same_kind_variant t1 t2 = true ->
  block_words (tagged t1 kvs) = block_words (tagged t2 kvs).
Proof.
  intros H. apply variant_cases in H.
  destruct H as [->|[[[-> | ->] [-> | ->]] | [[-> | ->] [-> | ->]]]];
    reflexivity.
Qed.

Lemma variant_first_paragraph (t1 t2 : string) (kvs : list (string * json))
    (post : list json) :
  same_kind_variant t1 t2 = true ->
  first_paragraph (tagged t1 kvs :: post) = first_paragraph (tagged t2 kvs :: post).
Proof.
  intros H. apply variant_cases in H.
  destruct H as [->|[[[-> | ->] [-> | ->]] | [[-> | ->] [-> | ->]]]];
    reflexivity.
Qed.

(** One step of the loop of [get_excerpt], with the tag test written as a
    string comparison. *)
Lemma first_paragraph_step (kvs : list (string * json)) (rest : list json) :
  first_paragraph (JObj kvs :: rest)
  = if match dict_get kvs "type" with
       | Some (JStr t) => String.eqb t "paragraph"
       | _ => false
       end
    then (data <- get (JObj kvs) "data" (JObj []) ;;
          text <- get data "text" (JStr EmptyString) ;;
          s <- as_str text ;;
          Ok (truncate (strip_tags s)))
    else first_paragraph rest.
Proof.
  cbn [first_paragraph].
  destruct (dict_get kvs "type") as [[| | | s | |]|]; try reflexivity.
  repeat match goal with
         | |- context [match ?s with EmptyString => _ | String _ _ => _ end] =>
             destruct s; try reflexivity
         | |- context [match ?c with Ascii _ _ _ _ _ _ _ _ => _ end] =>
             destruct c
         | |- context [if ?b then _ else _] => destruct b; try reflexivity
         end.
Qed.

(** A block contributing no words can be dropped from the word loop. *)
Lemma blocks_words_drop (pre post : list json) (b : json) :
  block_words b = Ok 0 -> blocks_words (pre ++ b :: post) = blocks_words (pre ++ post).
Proof.
  intros Hb. induction pre as [|a pre IH]; cbn [app blocks_words].
  - rewrite Hb. cbn [bind]. destruct (blocks_words post); reflexivity.
  - rewrite IH. reflexivity.
Qed.

(** A block not tagged exactly [paragraph] can be dropped from the loop of
    [get_excerpt]. *)
Lemma first_paragraph_drop (pre post : list json) (t : string) (kvs : list (string * json)) :
  t <> "paragraph" ->
  first_paragraph (pre ++ tagged t kvs :: post) = first_paragraph (pre ++ post).
Proof.
  intros Ht. induction pre as [|a pre IH]; cbn [app].
  - unfold tagged. rewrite first_paragraph_step.
    change (dict_get (("type", JStr t) :: kvs) "type") with (Some (JStr t)).
    cbv beta iota. destruct (String.eqb_spec t "paragraph") as [|_]; [contradiction|reflexivity].
  - destruct a as [| | | | |kvs']; try reflexivity.
    rewrite !first_paragraph_step. rewrite IH. reflexivity.
Qed.

End DeriveFacts.

Module ReadingTimeClaims.
Import Py Derive Blocks SpecReadingTime DeriveFacts Samples.

(** Claim C1 (amended).  On every document in the editor's shape, the
    reading time is [max(1, round(W / 200))] with round-half-to-even, where
    [W] sums the markup-stripped, whitespace-split word counts of the blocks
    tagged exactly [paragraph], [header], [Header] or [quote] (their text)
    and of the blocks tagged [list] or [List] (each item), every other block
    contributing nothing; an absent or empty document gives 1. *)
Theorem reading_time_total_words (content : json) :
  well_formed content = true ->
  calculate_reading_time content = Ok (Nat.max 1 (round_div (total_words content) 200)).
Proof.
  intros Hwf.
  unfold calculate_reading_time, total_words, document_blocks.
  destruct (truthy content) eqn:Ht; simpl; [|reflexivity].
  unfold well_formed in Hwf. rewrite Ht in Hwf. simpl in Hwf.
  destruct content as [| | | | |kvs]; try reflexivity.
  destruct (dict_get kvs "blocks") as [[| | | | bs |]|]; try discriminate;
    try reflexivity.
  simpl. rewrite (blocks_words_well_formed bs Hwf). simpl.
  rewrite sum_filters. reflexivity.
Qed.

Lemma reading_time_total_words_witness :
  well_formed scenario_doc = true /\
  calculate_reading_time scenario_doc
  = Ok (Nat.max 1 (round_div (total_words scenario_doc) 200)) /\
  total_words scenario_doc = 6.
Proof.
  split; [reflexivity|]. split.
  - apply (reading_time_total_words scenario_doc). reflexivity.
  - vm_compute. reflexivity.
Defined.

(** Claim C1 (counterexample).  A [Header] block and a [Paragraph] block of
    400 words each: the code counts the first and not the second (2 minutes),
    while the claim gives 1 minute when tags are read literally and 4 when
    they are read case-insensitively. *)
Lemma reading_time_mixed_case_counterexample :
  calculate_reading_time c1_doc = Ok 2 /\
  spec_reading_time (fun t => t) c1_doc = 1 /\
  spec_reading_time lower c1_doc = 4 /\
  calculate_reading_time c1_doc <> Ok (spec_reading_time (fun t => t) c1_doc) /\
  calculate_reading_time c1_doc <> Ok (spec_reading_time lower c1_doc).
Proof.
  vm_compute. repeat split; discriminate.
Qed.

(** Claim C2 (code bug).  A paragraph block whose [text] is [null], and a
    [blocks] entry that is not an object, make the reading-time computation
    raise instead of counting zero words. *)
Theorem reading_time_raises_on_null_text :
  calculate_reading_time
    (JObj [("blocks", JArr [tagged "paragraph" [("data", JObj [("text", JNull)])]])])
  = Raise TypeError /\
  calculate_reading_time (JObj [("blocks", JArr [JStr "x"])]) = Raise AttributeError.
Proof. split; reflexivity. Qed.

End ReadingTimeClaims.

Module CasingClaims.
Import Py Derive Blocks SpecReadingTime DeriveFacts.

(** A block whose tag is none of the counted kinds contributes no words. *)
Lemma uncounted_block_words (t : string) (kvs : list (string * json)) :
  existsb (String.eqb t) (text_kinds ++ list_kinds) = false ->
  block_words (tagged t kvs) = Ok 0.
Proof.
  intros H. rewrite existsb_app in H. apply orb_false_iff in H as [H1 H2].
  unfold block_words, tagged.
  change (dict_get (("type", JStr t) :: kvs) "type") with (Some (JStr t)).
  unfold kind_in. rewrite H1, H2. reflexivity.
Qed.

(** Claim C3 (amended).  Swapping one block's kind tag between [header] and
    [Header], or between [list] and [List], anywhere in a document leaves
    both the reading time and the excerpt (value or exception) unchanged.
    No other casing variant is normalized: a block tagged with anything but
    [paragraph], [header], [quote], [Header], [list] or [List] (so
    [Paragraph] and [Quote] too) adds nothing to the reading time, and the
    excerpt skips every block not tagged exactly [paragraph] (so
    [Paragraph] too): removing such a block changes neither. *)
Theorem casing_variants_equivalent
    (top1 top2 : list (string * json)) (pre post : list json)
    (kvs : list (string * json)) (t1 t2 desc : string) :
  (same_kind_variant t1 t2 = true ->
   calculate_reading_time (doc_with top1 (pre ++ tagged t1 kvs :: post) top2)
   = calculate_reading_time (doc_with top1 (pre ++ tagged t2 kvs :: post) top2) /\
   get_excerpt desc (doc_with top1 (pre ++ tagged t1 kvs :: post) top2)
   = get_excerpt desc (doc_with top1 (pre ++ tagged t2 kvs :: post) top2)) /\
  (forall t kvs', existsb (String.eqb t) (text_kinds ++ list_kinds) = false ->
   calculate_reading_time (doc_with top1 (pre ++ tagged t kvs' :: post) top2)
   = calculate_reading_time (doc_with top1 (pre ++ post) top2)) /\
  (forall t kvs', t <> "paragraph" ->
   get_excerpt desc (doc_with top1 (pre ++ tagged t kvs' :: post) top2)
   = get_excerpt desc (doc_with top1 (pre ++ post) top2)) /\
  existsb (String.eqb "Paragraph") (text_kinds ++ list_kinds) = false /\
  existsb (String.eqb "Quote") (text_kinds ++ list_kinds) = false.
Proof.
  unfold doc_with.
  assert (Htr : forall bs, truthy (JObj (top1 ++ ("blocks", JArr bs) :: top2)) = true).
  { intros bs. simpl. rewrite length_app. simpl.
    rewrite Nat.add_succ_r. reflexivity. }
  split; [intros Hv; split|split; [|split; [|split; reflexivity]]].
  - unfold calculate_reading_time. rewrite !Htr. simpl.
    rewrite !dict_get_app. simpl.
    destruct (dict_get top1 "blocks"); [reflexivity|]. simpl.
    rewrite (blocks_words_app pre post _ _ (variant_block_words t1 t2 kvs Hv)).
    reflexivity.
  - unfold get_excerpt.
    destruct (negb (String.eqb desc EmptyString)); [reflexivity|].
    rewrite !Htr. rewrite !dict_get_app. simpl.
    destruct (dict_get top1 "blocks"); [reflexivity|]. simpl.
    apply first_paragraph_app, variant_first_paragraph, Hv.
  - intros t kvs' Ht.
    unfold calculate_reading_time. rewrite !Htr. simpl.
    rewrite !dict_get_app. simpl.
    destruct (dict_get top1 "blocks"); [reflexivity|]. simpl.
    rewrite (blocks_words_drop pre post _ (uncounted_block_words t kvs' Ht)).
    reflexivity.
  - intros t kvs' Ht. unfold get_excerpt.
    destruct (negb (String.eqb desc EmptyString)); [reflexivity|].
    rewrite !Htr. rewrite !dict_get_app. simpl.
    destruct (dict_get top1 "blocks"); [reflexivity|]. simpl.
    apply first_paragraph_drop, Ht.
Qed.

Lemma casing_variants_equivalent_witness :
  same_kind_variant "List" "list" = true /\
  calculate_reading_time (doc_with [] [tagged "List" [("data", JObj [("items", JArr [JStr "a b"])])]] [])
  = calculate_reading_time (doc_with [] [tagged "list" [("data", JObj [("items", JArr [JStr "a b"])])]] []) /\
  get_excerpt EmptyString (doc_with [] [tagged "List" [("data", JObj [("items", JArr [JStr "a b"])])]] [])
  = get_excerpt EmptyString (doc_with [] [tagged "list" [("data", JObj [("items", JArr [JStr "a b"])])]] []).
Proof.
  split; [reflexivity|].
  apply (proj1 (casing_variants_equivalent [] [] [] [] [("data", JObj [("items", JArr [JStr "a b"])])] "List" "list" EmptyString)).
  reflexivity.
Defined.

(** Claim C3 (counterexample).  [Paragraph] differs from [paragraph] only by
    capitalization, yet a block tagged [Paragraph] gives an empty excerpt and
    one tagged [paragraph] gives its text. *)
Lemma paragraph_casing_counterexample :
  lower "Paragraph" = lower "paragraph" /\
  get_excerpt EmptyString (doc_with [] [tagged "paragraph" [("data", JObj [("text", JStr "Hi")])]] [])
  = Ok "Hi" /\
  get_excerpt EmptyString (doc_with [] [tagged "Paragraph" [("data", JObj [("text", JStr "Hi")])]] [])
  = Ok EmptyString.
Proof. repeat split. Qed.

End CasingClaims.

Module ExcerptClaims.
Import Py Derive Blocks SpecExcerpt DeriveFacts Posts Samples.

(** An explicit description is returned unchanged, whatever the document. *)
Lemma excerpt_description (desc : string) (content : json) :
  desc <> EmptyString -> get_excerpt desc content = Ok desc.
Proof.
  intros H. unfold get_excerpt.
  apply String.eqb_neq in H. rewrite H. reflexivity.
Qed.

(** On blocks whose word count succeeds, the loop of [get_excerpt] returns
    the truncated, markup-stripped text of the first [paragraph] block. *)
Lemma first_paragraph_timed (bs : list json) (m : nat) :
  blocks_words bs = Ok m ->
  first_paragraph bs
  = Ok (match find (fun b => match block_tag b with
                             | Some (JStr t) => String.eqb t "paragraph"
                             | _ => false
                             end) bs with
        | Some b => truncate (strip_tags (block_text b))
        | None => EmptyString
        end).
Proof.
  revert m. induction bs as [|b rest IH]; intros m H; [reflexivity|].
  cbn [blocks_words] in H.
  destruct (block_words b) as [n|e] eqn:Eb; cbn [bind] in H; [|discriminate].
  destruct (blocks_words rest) as [m'|e] eqn:Er; cbn [bind] in H; [|discriminate].
  destruct b as [| | | | |kvs]; try (cbn in Eb; discriminate).
  rewrite first_paragraph_step. cbn [find block_tag].
  destruct (dict_get kvs "type") as [[| | | t | |]|] eqn:Et;
    try (apply (IH m'); reflexivity).
  destruct (String.eqb_spec t "paragraph") as [->|_]; [|apply (IH m'); reflexivity].
  unfold block_words, kind_in in Eb. rewrite Et in Eb. cbn [existsb String.eqb text_kinds] in Eb.
  simpl in Eb. unfold block_text, block_data.
  unfold get in *. destruct (dict_get kvs "data") as [[| | | | |d]|];
    cbn [bind] in *; try discriminate; [|reflexivity].
  destruct (dict_get d "text") as [[| | | s | |]|]; cbn [bind as_str] in *;
    try discriminate; reflexivity.
Qed.

(** Whenever the reading time of a document is computed, the excerpt is
    computed too, and is the one the spec describes. *)
Lemma excerpt_when_timed (desc : string) (content : json) (n : nat) :
  calculate_reading_time content = Ok n ->
  get_excerpt desc content = Ok (spec_excerpt desc content).
Proof.
  intros H. unfold get_excerpt, spec_excerpt.
  destruct (negb (String.eqb desc EmptyString)); [reflexivity|].
  unfold first_paragraph_block, document_blocks.
  destruct content as [| | | | |kvs];
    try (match goal with |- context [if ?b then _ else _] => destruct b end; reflexivity).
  destruct (truthy (JObj kvs)) eqn:T; [|reflexivity].
  unfold calculate_reading_time in H. rewrite T in H. cbn [negb] in H.
  destruct (dict_get kvs "blocks") as [bj|]; [|reflexivity].
  destruct bj as [| | |str|bs|kvs']; cbn [iter bind] in H |- *; try discriminate.
  - destruct str as [|c str]; [reflexivity|]. cbn in H. discriminate.
  - destruct (blocks_words bs) as [m|e] eqn:W; [|discriminate].
    rewrite (first_paragraph_timed bs m W). reflexivity.
  - destruct kvs' as [|kv kvs']; [reflexivity|]. cbn in H. discriminate.
Qed.

(** A saved row's document has a computed reading time. *)
Lemma save_row_timed (now : Z) (db : store) (p row : BlogPost) (db' : store) :
  save now db p = Ok (row, db') -> exists n, calculate_reading_time row.(content) = Ok n.
Proof.
  unfold save, save_fields.
  destruct (calculate_reading_time (content (stamp_published now (assign_slug db p))))
    as [rt|e] eqn:E; cbn [bind]; [|discriminate].
  destruct (pk _); intros H; injection H as <- _; exists rt; exact E.
Qed.

(** Claim C4.  For every post that [save] stores, the excerpt is computed
    without error and is the description when there is one; otherwise the
    markup-stripped text of the first block of kind [paragraph], cut to 200
    characters with an ellipsis exactly when it is longer; otherwise
    empty. *)
Theorem excerpt_of_saved_post (now : Z) (db : store) (p row : BlogPost) (db' : store) :
  save now db p = Ok (row, db') ->
  get_excerpt row.(meta_description) row.(content)
  = Ok (spec_excerpt row.(meta_description) row.(content)).
Proof.
  intros H. destruct (save_row_timed now db p row db' H) as [n Hn].
  exact (excerpt_when_timed _ _ n Hn).
Qed.

Lemma excerpt_of_saved_post_witness :
  save 1 [] excerpt_post = Ok (fst excerpt_saved, snd excerpt_saved) /\
  spec_excerpt (fst excerpt_saved).(meta_description) (fst excerpt_saved).(content)
  = "Fast charging" /\
  get_excerpt (fst excerpt_saved).(meta_description) (fst excerpt_saved).(content)
  = Ok (spec_excerpt (fst excerpt_saved).(meta_description) (fst excerpt_saved).(content)).
Proof.
  split; [vm_compute; reflexivity|]. split; [vm_compute; reflexivity|].
  apply (excerpt_of_saved_post 1 [] excerpt_post (fst excerpt_saved) (snd excerpt_saved)).
  vm_compute. reflexivity.
Defined.

End ExcerptClaims.

Module SeoClaims.
Import Seo.

(** Claim C8.  On save, a blank [og_title] / [og_description] takes the
    value of [page_title] / [meta_description], a blank [twitter_title] /
    [twitter_description] / [twitter_image_url] takes the value of the
    corresponding Open Graph field, and every non-blank column is left
    unchanged. *)
Theorem seo_tag_save_defaults (t : SEOTag) :
  let t' := save_defaults t in
  t'.(og_title) = or_default t.(og_title) t.(page_title) /\
  t'.(og_description) = or_default t.(og_description) t.(meta_description) /\
  t'.(twitter_title) = or_default t.(twitter_title) t'.(og_title) /\
  t'.(twitter_description) = or_default t.(twitter_description) t'.(og_description) /\
  t'.(twitter_image_url) = or_default t.(twitter_image_url) t'.(og_image_url) /\
  (forall f, In f tag_fields -> f t <> EmptyString -> f t' = f t).
Proof.
  intros t'. repeat split.
  intros f Hf Hne. unfold t'.
  assert (Hd : forall x d, x <> EmptyString -> or_default x d = x).
  { intros x d Hx. unfold or_default. apply String.eqb_neq in Hx. rewrite Hx. reflexivity. }
  simpl in Hf.
  repeat (destruct Hf as [<-|Hf]; [simpl; try reflexivity; apply Hd; exact Hne|]).
  destruct Hf.
Qed.

Lemma singleton_step (o : op) (tbl : table) :
  singleton_table tbl -> singleton_table (step o tbl).
Proof.
  intros [Hlen Hkeys].
  assert (Hshape : tbl = [] \/ exists s, tbl = [(1, s)]).
  { destruct tbl as [|[k s] [|r rest]]; [left; reflexivity| |simpl in Hlen; lia].
    right. exists s. specialize (Hkeys (k, s) (or_introl eq_refl)).
    simpl in Hkeys. subst k. reflexivity. }
  destruct Hshape as [->|[s ->]]; destruct o as [fi inst|inst|];
    unfold step, advanced_save, advanced_load, advanced_delete, write_row; simpl;
    try destruct fi; simpl;
    split; simpl; try lia; intros row Hrow; simpl in Hrow;
    repeat (destruct Hrow as [<-|Hrow]; [reflexivity|]); destruct Hrow.
Qed.

Lemma singleton_run (ops : list op) (tbl : table) :
  singleton_table tbl -> singleton_table (run ops tbl).
Proof.
  revert tbl. induction ops as [|o ops IH]; intros tbl H; simpl; [exact H|].
  apply IH, singleton_step, H.
Qed.

(** Claim C9.  Whatever sequence of saves (with any primary key, forced
    inserts included), deletes and loads runs on the initially empty
    settings table, it holds at most one row, keyed 1; and [delete] never
    changes the table. *)
Theorem advanced_seo_singleton :
  (forall ops : list op, singleton_table (run ops [])) /\
  (forall (inst : AdvancedSEO) (tbl : table), advanced_delete inst tbl = tbl).
Proof.
  split.
  - intros ops. apply singleton_run. split; [simpl; lia|intros row []].
  - reflexivity.
Qed.

End SeoClaims.

Module SlugFacts.
Import Py Derive Posts.

Lemma string_length_app (s1 s2 : string) :
  String.length (s1 ++ s2) = String.length s1 + String.length s2.
Proof. induction s1 as [|c s1 IH]; simpl; [reflexivity|now rewrite IH]. Qed.

Lemma string_app_cancel (b s1 s2 : string) : b ++ s1 = b ++ s2 -> s1 = s2.
Proof.
  induction b as [|c b IH]; simpl; [tauto|].
  intros H. injection H. exact IH.
Qed.

Lemma decimal_value_app (acc : nat) (s1 s2 : string) :
  decimal_value acc (s1 ++ s2) = decimal_value (decimal_value acc s1) s2.
Proof.
  revert acc. induction s1 as [|c s1 IH]; intros acc; simpl; [reflexivity|apply IH].
Qed.

Lemma digit_value (d : nat) : d < 10 -> nat_of_ascii (digit d) - 48 = d.
Proof.
  intros Hd. unfold digit. rewrite nat_ascii_embedding; lia.
Qed.

Lemma decimal_fuel_value (f n : nat) : n < f -> decimal_value 0 (decimal_fuel f n) = n.
Proof.
  revert n. induction f as [|f IH]; intros n Hn; [lia|].
  cbn [decimal_fuel]. rewrite decimal_value_app. cbn [decimal_value].
  rewrite digit_value by (apply Nat.mod_upper_bound; lia).
  destruct (Nat.ltb_spec n 10) as [Hlt|Hge].
  - cbn [decimal_value]. rewrite Nat.mod_small by exact Hlt. reflexivity.
  - rewrite IH.
    + rewrite Nat.mul_comm. symmetry. apply Nat.div_mod. lia.
    + assert (n / 10 < n) by (apply Nat.div_lt; lia). lia.
Qed.

Lemma string_of_nat_inj (m n : nat) : string_of_nat m = string_of_nat n -> m = n.
Proof.
  intros H.
  rewrite <- (decimal_fuel_value (S m) m) by lia.
  rewrite <- (decimal_fuel_value (S n) n) by lia.
  unfold string_of_nat in H. rewrite H. reflexivity.
Qed.

Lemma candidate_inj (base : string) (i j : nat) :
  candidate base i = candidate base j -> i = j.
Proof.
  destruct i as [|i], j as [|j]; unfold candidate; intros H; try reflexivity.
  - apply (f_equal String.length) in H. rewrite string_length_app in H.
    cbn [String.length String.append] in H. lia.
  - apply (f_equal String.length) in H. rewrite string_length_app in H.
    cbn [String.length String.append] in H. lia.
  - apply string_app_cancel in H. injection H as H.
    apply string_of_nat_inj in H. lia.
Qed.

(** The loop tries the candidates in order from [k] on and stops at the
    first free one, or when the fuel runs out. *)
Lemma unique_slug_go_spec (taken : string -> bool) (base : string) (fuel k : nat) :
  exists m,
    unique_slug_go fuel taken base (candidate base k) (S k) = candidate base m /\
    k <= m <= k + fuel /\
    (forall j, k <= j < m -> taken (candidate base j) = true) /\
    (taken (candidate base m) = true -> m = k + fuel).
Proof.
  revert k. induction fuel as [|f IH]; intros k; cbn [unique_slug_go].
  - exists k. repeat split; intros; lia.
  - destruct (taken (candidate base k)) eqn:Ht.
    + destruct (IH (S k)) as (m & Hm & Hb & Hall & Hlast).
      exists m. split; [exact Hm|]. split; [lia|]. split.
      * intros j Hj. destruct (Nat.eq_dec j k) as [->|Hne]; [exact Ht|].
        apply Hall. lia.
      * intros Hm'. specialize (Hlast Hm'). lia.
    + exists k. split; [reflexivity|]. split; [lia|]. split.
      * intros j Hj. lia.
      * intros H. congruence.
Qed.

Lemma taken_in (db : store) (self : option nat) (s : string) :
  slug_taken db self s = true -> In s (map slug db).
Proof.
  unfold slug_taken. intros H. apply existsb_exists in H as (q & Hq & Hs).
  apply andb_true_iff in Hs as [Hs _]. apply String.eqb_eq in Hs.
  apply in_map_iff. exists q. split; assumption.
Qed.

(** At most [length db] candidates are taken, so the loop of [save] never
    runs out of fuel. *)
Lemma unique_slug_free (db : store) (self : option nat) (base : string) :
  exists k,
    unique_slug_go (S (List.length db)) (slug_taken db self) base base 1 = candidate base k /\
    slug_taken db self (candidate base k) = false /\
    (forall j, j < k -> slug_taken db self (candidate base j) = true).
Proof.
  destruct (unique_slug_go_spec (slug_taken db self) base (S (List.length db)) 0)
    as (m & Hm & Hb & Hall & Hlast).
  exists m. split; [exact Hm|]. split.
  - destruct (slug_taken db self (candidate base m)) eqn:Ht; [|reflexivity].
    exfalso. specialize (Hlast eq_refl). rewrite Nat.add_0_l in Hlast. subst m.
    assert (Hnd : NoDup (map (candidate base) (seq 0 (S (List.length db))))).
    { apply Finite.Injective_map_NoDup; [intros i j; apply candidate_inj|apply seq_NoDup]. }
    assert (Hincl : incl (map (candidate base) (seq 0 (S (List.length db)))) (map slug db)).
    { intros s Hs. apply in_map_iff in Hs as (j & <- & Hj). apply in_seq in Hj.
      apply (taken_in db self). apply Hall. lia. }
    pose proof (NoDup_incl_length Hnd Hincl) as Hlen.
    rewrite !length_map, length_seq in Hlen. lia.
  - intros j Hj. apply Hall. lia.
Qed.

End SlugFacts.

Module SlugClaims.
Import Py Derive Posts SlugFacts Samples.

Lemma save_fields_slug (now : Z) (db : store) (p p' : BlogPost) :
  save_fields now db p = Ok p' -> p'.(slug) = (assign_slug db p).(slug).
Proof.
  unfold save_fields.
  destruct (calculate_reading_time _); simpl; intros H; [|discriminate].
  injection H as <-. unfold stamp_published.
  destruct (status_of (assign_slug db p)), (published_at (assign_slug db p));
    reflexivity.
Qed.

(** Claim C5.  When a post without a slug is saved, its slug is the first
    of [slugify(title)], [slugify(title)-1], [slugify(title)-2], ... that no
    other post holds (the post itself excluded), and this is the slug [save]
    keeps; creating two posts titled "Hello World" gives the slugs
    "hello-world" and "hello-world-1", in that order. *)
Theorem slug_generated_on_save (db : store) (p : BlogPost) :
  p.(slug) = EmptyString ->
  (exists k,
     (assign_slug db p).(slug) = candidate (slugify p.(title)) k /\
     slug_taken db p.(pk) (candidate (slugify p.(title)) k) = false /\
     (forall j, j < k -> slug_taken db p.(pk) (candidate (slugify p.(title)) j) = true)) /\
  (forall now p', save_fields now db p = Ok p' -> p'.(slug) = (assign_slug db p).(slug)) /\
  map slug hello_db2 = ["hello-world"; "hello-world-1"].
Proof.
  intros Hs. split; [|split].
  - unfold assign_slug. rewrite Hs. cbn [String.eqb].
    destruct (unique_slug_free db p.(pk) (slugify p.(title))) as (k & Hk & Hfree & Hprev).
    exists k. split; [|split]; [exact Hk|exact Hfree|exact Hprev].
  - intros now p'. apply save_fields_slug.
  - vm_compute. reflexivity.
Qed.

Lemma slug_generated_on_save_witness :
  (new_post "Hello World").(slug) = EmptyString /\
  (assign_slug hello_db1 (new_post "Hello World")).(slug) = "hello-world-1" /\
  ((exists k,
     (assign_slug hello_db1 (new_post "Hello World")).(slug)
     = candidate (slugify "Hello World") k /\
     slug_taken hello_db1 None (candidate (slugify "Hello World") k) = false /\
     (forall j, j < k -> slug_taken hello_db1 None (candidate (slugify "Hello World") j) = true)) /\
  (forall now p', save_fields now hello_db1 (new_post "Hello World") = Ok p' ->
     p'.(slug) = (assign_slug hello_db1 (new_post "Hello World")).(slug)) /\
  map slug hello_db2 = ["hello-world"; "hello-world-1"]).
Proof.
  split; [reflexivity|]. split; [vm_compute; reflexivity|].
  apply (slug_generated_on_save hello_db1 (new_post "Hello World")).
  reflexivity.
Defined.

End SlugClaims.

Module PublishClaims.
Import Py Derive Posts Views.

Lemma assign_slug_fields (db : store) (p : BlogPost) :
  let q := assign_slug db p in
  q.(pk) = p.(pk) /\ q.(status_of) = p.(status_of) /\
  q.(published_at) = p.(published_at) /\ q.(content) = p.(content) /\
  q.(views_count) = p.(views_count).
Proof.
  unfold assign_slug. destruct (String.eqb _ _); repeat split.
Qed.

Lemma save_fields_fields (now : Z) (db : store) (p p' : BlogPost) :
  save_fields now db p = Ok p' ->
  p'.(pk) = p.(pk) /\ p'.(status_of) = p.(status_of) /\
  p'.(published_at) = stamped now p /\ p'.(views_count) = p.(views_count).
Proof.
  unfold save_fields.
  destruct (assign_slug_fields db p) as (Hpk & Hst & Hpub & Hc & Hv).
  set (q := assign_slug db p) in *.
  destruct (calculate_reading_time _); simpl; intros H; [|discriminate].
  injection H as <-. unfold stamped, stamp_published.
  rewrite <- Hst, <- Hpub.
  destruct (status_of q) eqn:E1, (published_at q) eqn:E2;
    unfold set_reading_time, set_published_at; cbn;
    repeat split; congruence.
Qed.

Lemma save_spec (now : Z) (db : store) (p row : BlogPost) (db' : store) :
  save now db p = Ok (row, db') ->
  row.(published_at) = stamped now p /\
  row.(status_of) = p.(status_of) /\
  (p.(pk) = None -> db' = app db [row]) /\
  (forall n, p.(pk) = Some n -> row.(pk) = Some n /\ db' = update_row row db).
Proof.
  unfold save. destruct (save_fields now db p) as [p'|e] eqn:Hs; simpl; [|discriminate].
  destruct (save_fields_fields now db p p' Hs) as (Hpk & Hst & Hpub & _).
  destruct (pk p') as [n|] eqn:Hp; intros H; injection H as <- <-;
    unfold set_ids; cbn; repeat split; try congruence.
Qed.





End PublishClaims.

Module ViewClaims.
Import Py Derive Posts Views PublishClaims Samples.

Lemma save_fields_ok (now : Z) (db : store) (p : BlogPost) :
  raises (calculate_reading_time p.(content)) = false ->
  exists p', save_fields now db p = Ok p'.
Proof.
  intros H. unfold save_fields.
  destruct (assign_slug_fields db p) as (_ & _ & _ & Hc & _).
  assert (Hc' : (stamp_published now (assign_slug db p)).(content) = p.(content)).
  { unfold stamp_published.
    destruct (status_of (assign_slug db p)), (published_at (assign_slug db p));
      cbn; exact Hc. }
  rewrite Hc'. destruct (calculate_reading_time (content p)); [|discriminate].
  eexists. reflexivity.
Qed.

(** Claim C7 (amended).  A retrieve that finds the post answers 200 and
    writes only [views_count], one more than the stored value: every other
    column of every row, [reading_time] and [slug] included, is unchanged.
    The post is found when it is in the default queryset (published, or any
    post with [include_drafts=true]) and the request's filter and search
    parameters keep it, and its content is one the reading-time computation
    accepts.  A retrieve that finds nothing answers 404 and changes nothing;
    one whose filter parameter is invalid answers 400 and changes nothing. *)
Theorem retrieve_increments_views (flt : query_filter) (now : Z) (param : option string)
    (s : string) (db : store) (p : BlogPost) :
  get_filtered_object flt param s db = Found p ->
  raises (calculate_reading_time p.(content)) = false ->
  retrieve flt now param s db
  = (200, map (fun q => if same_pk q.(pk) p.(pk) then set_views (S p.(views_count)) q else q) db) /\
  (forall q, (set_views (S p.(views_count)) q).(reading_time) = q.(reading_time) /\
             (set_views (S p.(views_count)) q).(slug) = q.(slug)) /\
  (forall s', get_filtered_object flt param s' db = NotFound ->
              retrieve flt now param s' db = (404, db)) /\
  (forall s', get_filtered_object flt param s' db = BadQuery ->
              retrieve flt now param s' db = (400, db)).
Proof.
  intros Hg Hrt. split; [|split; [|split]].
  - unfold retrieve. rewrite Hg. unfold increment_views.
    destruct (save_fields_ok now db (set_views (S (views_count p)) p) Hrt) as [p2 Hp2].
    rewrite Hp2. simpl.
    destruct (save_fields_fields _ _ _ _ Hp2) as (Hpk & _ & _ & Hv).
    unfold write_views. rewrite Hpk, Hv. reflexivity.
  - intros q. split; reflexivity.
  - intros s' Hn. unfold retrieve. rewrite Hn. reflexivity.
  - intros s' Hn. unfold retrieve. rewrite Hn. reflexivity.
Qed.

Lemma retrieve_increments_views_witness :
  get_filtered_object no_filter None "ev-news" published_db
  = Found (hd (new_post EmptyString) published_db) /\
  raises (calculate_reading_time JNull) = false /\
  map views_count (snd (retrieve no_filter 20 None "ev-news" published_db)) = [4] /\
  (retrieve no_filter 20 None "ev-news" published_db
   = (200, map (fun q => if same_pk q.(pk) (Some 1) then set_views 4 q else q) published_db) /\
   (forall q, (set_views 4 q).(reading_time) = q.(reading_time) /\
              (set_views 4 q).(slug) = q.(slug)) /\
   (forall s', get_filtered_object no_filter None s' published_db = NotFound ->
               retrieve no_filter 20 None s' published_db = (404, published_db)) /\
   (forall s', get_filtered_object no_filter None s' published_db = BadQuery ->
               retrieve no_filter 20 None s' published_db = (400, published_db))).
Proof.
  split; [reflexivity|]. split; [reflexivity|]. split; [vm_compute; reflexivity|].
  apply (retrieve_increments_views no_filter 20 None "ev-news" published_db
           (hd (new_post EmptyString) published_db)); reflexivity.
Defined.

(** Claim C7 (counterexample).  A retrieve by slug does not always count a
    view: the draft "draft" with the default query answers 404 and keeps its
    counter at 0; the published "ev-news" answers 404 with [?search=zzz] or
    [?status=draft], and 400 with [?status=bogus], keeping its counter at 3
    each time. *)
Lemma retrieve_draft_counterexample :
  retrieve no_filter 5 None "draft" draft_db = (404, draft_db) /\
  map views_count (snd (retrieve no_filter 5 None "draft" draft_db)) = [0] /\
  map views_count (snd (retrieve no_filter 5 None "draft" draft_db)) <> [1] /\
  retrieve (search_filter "zzz") 5 None "ev-news" published_db = (404, published_db) /\
  retrieve (status_filter "draft") 5 None "ev-news" published_db = (404, published_db) /\
  retrieve (status_filter "bogus") 5 None "ev-news" published_db = (400, published_db) /\
  map views_count published_db = [3].
Proof.
  split; [reflexivity|]. split; [reflexivity|]. split; [discriminate|].
  repeat split; vm_compute; reflexivity.
Qed.

End ViewClaims.

Module LatestClaims.
Import Py Derive Posts Views.











End LatestClaims.

Module StringFacts.
Import Py.

Lemma string_app_assoc (a b c : string) : (a ++ b) ++ c = a ++ (b ++ c).
Proof. induction a as [|x a IH]; simpl; [reflexivity|now rewrite IH]. Qed.

Lemma string_app_nil_r (a : string) : a ++ EmptyString = a.
Proof. induction a as [|x a IH]; simpl; [reflexivity|now rewrite IH]. Qed.

Lemma list_ascii_app (a b : string) :
  list_ascii_of_string (a ++ b) = (list_ascii_of_string a ++ list_ascii_of_string b)%list.
Proof. induction a as [|x a IH]; simpl; [reflexivity|now rewrite IH]. Qed.

Lemma has_char_list (c : ascii) (s : string) :
  has_char c s = existsb (Ascii.eqb c) (list_ascii_of_string s).
Proof. induction s as [|x s IH]; simpl; [reflexivity|now rewrite IH]. Qed.

Lemma has_char_app (c : ascii) (a b : string) :
  has_char c (a ++ b) = has_char c a || has_char c b.
Proof.
  rewrite !has_char_list, list_ascii_app, existsb_app. reflexivity.
Qed.

End StringFacts.

Module TagFacts.
Import Py Views Tags StringFacts.


Lemma drop_spaces_head (l : list ascii) : head_ok (drop_spaces l).
Proof.
  induction l as [|c l IH]; simpl; [exact I|].
  destruct (is_space c) eqn:E; [exact IH|exact E].
Qed.

Lemma drop_spaces_fix (l : list ascii) : head_ok l -> drop_spaces l = l.
Proof. destruct l as [|c l]; simpl; [reflexivity|]. intros E. now rewrite E. Qed.

Lemma drop_spaces_suffix (l : list ascii) : exists p, l = (p ++ drop_spaces l)%list.
Proof.
  induction l as [|c l [p Hp]]; simpl; [exists []; reflexivity|].
  destruct (is_space c).
  - exists (c :: p). simpl. now rewrite <- Hp.
  - exists []. reflexivity.
Qed.

Lemma drop_spaces_incl (l : list ascii) : incl (drop_spaces l) l.
Proof.
  destruct (drop_spaces_suffix l) as [p Hp]. intros x Hx.
  rewrite Hp. apply in_or_app. now right.
Qed.


Lemma strip_list_ok (l : list ascii) :
  head_ok (strip_list l) /\ head_ok (rev (strip_list l)).
Proof.
  unfold strip_list. rewrite rev_involutive. split; [|apply drop_spaces_head].
  set (z := drop_spaces l).
  destruct (drop_spaces_suffix (rev z)) as [p Hp].
  set (y := drop_spaces (rev z)) in *.
  assert (Hz : z = (rev y ++ rev p)%list).
  { rewrite <- rev_app_distr, <- Hp, rev_involutive. reflexivity. }
  pose proof (drop_spaces_head l) as Hh. fold z in Hh. rewrite Hz in Hh.
  destruct (rev y) as [|c r]; simpl in *; [exact I|exact Hh].
Qed.

Lemma strip_list_fix (l : list ascii) :
  head_ok l -> head_ok (rev l) -> strip_list l = l.
Proof.
  intros H1 H2. unfold strip_list.
  rewrite (drop_spaces_fix l H1), (drop_spaces_fix (rev l) H2). apply rev_involutive.
Qed.

Lemma strip_idem (s : string) : strip (strip s) = strip s.
Proof.
  unfold strip. rewrite list_ascii_of_string_of_list_ascii.
  fold (strip_list (list_ascii_of_string s)).
  fold (strip_list (strip_list (list_ascii_of_string s))).
  destruct (strip_list_ok (list_ascii_of_string s)) as [H1 H2].
  rewrite (strip_list_fix _ H1 H2). reflexivity.
Qed.

Lemma strip_incl (s : string) :
  incl (list_ascii_of_string (strip s)) (list_ascii_of_string s).
Proof.
  unfold strip. rewrite list_ascii_of_string_of_list_ascii.
  intros x Hx. apply in_rev in Hx. apply drop_spaces_incl in Hx.
  apply in_rev in Hx. apply drop_spaces_incl in Hx. exact Hx.
Qed.

Lemma has_char_strip (c : ascii) (s : string) :
  has_char c s = false -> has_char c (strip s) = false.
Proof.
  rewrite !has_char_list. intros H.
  destruct (existsb (Ascii.eqb c) (list_ascii_of_string (strip s))) eqn:E; [|reflexivity].
  apply existsb_exists in E as (x & Hx & Hxc).
  apply strip_incl in Hx.
  assert (existsb (Ascii.eqb c) (list_ascii_of_string s) = true)
    by (apply existsb_exists; eauto).
  congruence.
Qed.

Lemma strip_space (u : string) : strip (String " " u) = strip u.
Proof. reflexivity. Qed.

Lemma split_on_no_sep (sep : ascii) (s cur u : string) :
  In u (split_on sep cur s) -> has_char sep cur = false -> has_char sep u = false.
Proof.
  revert cur. induction s as [|c s IH]; intros cur Hin Hcur; simpl in Hin.
  - destruct Hin as [<-|[]]. exact Hcur.
  - destruct (Ascii.eqb c sep) eqn:E.
    + destruct Hin as [<-|Hin]; [exact Hcur|]. apply (IH EmptyString Hin). reflexivity.
    + apply (IH _ Hin). rewrite has_char_app, Hcur. simpl.
      rewrite Ascii.eqb_sym, E. reflexivity.
Qed.

Lemma split_on_app (sep : ascii) (a s cur : string) :
  has_char sep a = false -> split_on sep cur (a ++ s) = split_on sep (cur ++ a) s.
Proof.
  revert cur. induction a as [|c a IH]; intros cur Ha; simpl.
  - now rewrite string_app_nil_r.
  - simpl in Ha. apply orb_false_iff in Ha as [Hc Ha].
    rewrite Ascii.eqb_sym, Hc. rewrite IH by exact Ha.
    rewrite string_app_assoc. reflexivity.
Qed.

Lemma split_on_concat (t : string) (rest : list string) (cur : string) :
  (forall u, In u (t :: rest) -> has_char "," u = false) ->
  split_on "," cur (String.concat ", " (t :: rest))
  = (cur ++ t) :: map (fun u => String " " u) rest.
Proof.
  revert t cur. induction rest as [|t2 rest IH]; intros t cur Hall.
  - cbn [String.concat]. rewrite <- (string_app_nil_r t) at 1.
    rewrite split_on_app by (apply Hall; now left). reflexivity.
  - change (String.concat ", " (t :: t2 :: rest))
      with (t ++ ", " ++ String.concat ", " (t2 :: rest)).
    rewrite split_on_app by (apply Hall; now left).
    cbn [String.append split_on]. rewrite Ascii.eqb_refl.
    replace (Ascii.eqb " " ",") with false by reflexivity.
    cbn [String.append].
    rewrite IH by (intros u Hu; apply Hall; now right). reflexivity.
Qed.

Lemma concat_nonempty (t : string) (rest : list string) :
  t <> EmptyString -> String.concat ", " (t :: rest) <> EmptyString.
Proof.
  destruct t as [|c t]; [tauto|]. intros _.
  destruct rest; simpl; discriminate.
Qed.


End TagFacts.

Module TagLists.
Import Py Views Tags StringFacts TagFacts.

(** Every entry of [get_tag_list] is non-empty, has no whitespace at
    either end, and holds no comma. *)
Theorem tag_list_entries_clean (tags t : string) :
  In t (get_tag_list tags) ->
  t <> EmptyString /\ strip t = t /\ has_char "," t = false.
Proof.
  unfold get_tag_list. destruct (String.eqb tags EmptyString); [intros []|].
  intros Hin. apply in_map_iff in Hin as (u & <- & Hu).
  apply filter_In in Hu as [Hu Hne].
  apply negb_true_iff, String.eqb_neq in Hne.
  split; [exact Hne|]. split; [apply strip_idem|].
  apply has_char_strip. apply (split_on_no_sep "," tags EmptyString u Hu). reflexivity.
Qed.

(** Tags that are non-empty, stripped and free of commas, written
    comma-separated, are read back by [get_tag_list] unchanged. *)
Theorem tag_list_round_trip (ts : list string) :
  (forall t, In t ts -> t <> EmptyString /\ strip t = t /\ has_char "," t = false) ->
  get_tag_list (String.concat ", " ts) = ts.
Proof.
  intros Hall. destruct ts as [|t rest]; [reflexivity|].
  unfold get_tag_list.
  destruct (String.eqb_spec (String.concat ", " (t :: rest)) EmptyString) as [He|_].
  { exfalso. apply (concat_nonempty t rest); [apply Hall; now left|exact He]. }
  rewrite split_on_concat by (intros u Hu; apply Hall, Hu).
  cbn [String.append]. destruct (Hall t (or_introl eq_refl)) as (Ht & Hst & _).
  assert (Hr : forall u, In u rest -> u <> EmptyString /\ strip u = u)
    by (intros u Hu; destruct (Hall u (or_intror Hu)) as (? & ? & _); auto).
  simpl filter. rewrite Hst.
  destruct (String.eqb_spec t EmptyString) as [|_]; [contradiction|].
  simpl map. rewrite Hst. f_equal.
  clear Hall Ht Hst. induction rest as [|u rest IH]; [reflexivity|].
  simpl filter. rewrite strip_space.
  destruct (Hr u (or_introl eq_refl)) as [Hu Hsu]. rewrite Hsu.
  destruct (String.eqb_spec u EmptyString) as [|_]; [contradiction|].
  simpl map. rewrite strip_space, Hsu. f_equal. apply IH. intros v Hv. apply Hr. now right.
Qed.

End TagLists.

Module RoundFacts.
Import Py.

Lemma round_div_200_cases (n : nat) :
  let q := n / 200 in
  let r := n mod 200 in
  n = 200 * q + r /\ r < 200 /\
  (2 * r < 200 -> round_div n 200 = q) /\
  (200 < 2 * r -> round_div n 200 = S q) /\
  (2 * r = 200 -> round_div n 200 = if Nat.even q then q else S q).
Proof.
  intros q r. split; [apply Nat.div_mod; lia|]. split; [apply Nat.mod_upper_bound; lia|].
  unfold round_div. fold q r.
  split; [|split]; intros H.
  - destruct (Nat.ltb_spec (2 * r) 200); [reflexivity|lia].
  - destruct (Nat.ltb_spec (2 * r) 200); [lia|].
    destruct (Nat.ltb_spec 200 (2 * r)); [reflexivity|lia].
  - destruct (Nat.ltb_spec (2 * r) 200); [lia|].
    destruct (Nat.ltb_spec 200 (2 * r)); [lia|reflexivity].
Qed.

Lemma round_div_200_mono (n m : nat) : n <= m -> round_div n 200 <= round_div m 200.
Proof.
  intros Hnm.
  destruct (round_div_200_cases n) as (Hn & Hrn & Ln & Gn & En).
  destruct (round_div_200_cases m) as (Hm & Hrm & Lm & Gm & Em).
  set (qn := n / 200) in *. set (rn := n mod 200) in *.
  set (qm := m / 200) in *. set (rm := m mod 200) in *.
  assert (Hbn : round_div n 200 = qn \/ round_div n 200 = S qn).
  { destruct (lt_eq_lt_dec (2 * rn) 200) as [[H|H]|H].
    - left; auto. - rewrite (En H). destruct (Nat.even qn); auto. - right; auto. }
  assert (Hbm : round_div m 200 = qm \/ round_div m 200 = S qm).
  { destruct (lt_eq_lt_dec (2 * rm) 200) as [[H|H]|H].
    - left; auto. - rewrite (Em H). destruct (Nat.even qm); auto. - right; auto. }
  assert (Hq : qn <= qm) by (apply Nat.Div0.div_le_mono; lia).
  destruct (Nat.eq_dec qn qm) as [Heq|Hne]; [|lia].
  assert (Hr : rn <= rm) by lia.
  destruct (lt_eq_lt_dec (2 * rn) 200) as [[H1|H1]|H1].
  - rewrite (Ln H1). lia.
  - rewrite (En H1). destruct (lt_eq_lt_dec (2 * rm) 200) as [[H2|H2]|H2]; [lia| |].
    + rewrite (Em H2), Heq. lia.
    + rewrite (Gm H2). destruct (Nat.even qn); lia.
  - rewrite (Gn H1). rewrite (Gm ltac:(lia)). lia.
Qed.

Lemma reading_round_bounds (w : nat) :
  (Nat.max 1 (round_div w 200) = 1 <-> w < 300) /\
  (100 <= w -> w <= 200 * Nat.max 1 (round_div w 200) + 100 /\
               200 * Nat.max 1 (round_div w 200) <= w + 100).
Proof.
  destruct (round_div_200_cases w) as (Hw & Hr & L & G & E).
  set (q := w / 200) in *. set (r := w mod 200) in *.
  destruct (lt_eq_lt_dec (2 * r) 200) as [[H|H]|H].
  - rewrite (L H). lia.
  - rewrite (E H). destruct (Nat.even q) eqn:He.
    + assert (q <> 1) by (intros Hq; rewrite Hq in He; discriminate). lia.
    + assert (q <> 0) by (intros Hq; rewrite Hq in He; discriminate). lia.
  - rewrite (G H). lia.
Qed.

End RoundFacts.

Module ReadingTimeFacts.
Import Py Derive Blocks DeriveFacts RoundFacts.

Lemma reading_time_words (content : json) :
  well_formed content = true ->
  calculate_reading_time content = Ok (Nat.max 1 (round_div (total_words content) 200)).
Proof.
  intros Hwf.
  unfold calculate_reading_time, total_words, document_blocks.
  destruct (truthy content) eqn:Ht; simpl; [|reflexivity].
  unfold well_formed in Hwf. rewrite Ht in Hwf. simpl in Hwf.
  destruct content as [| | | | |kvs]; try reflexivity.
  destruct (dict_get kvs "blocks") as [[| | | | bs |]|]; try discriminate;
    try reflexivity.
  simpl. rewrite (blocks_words_well_formed bs Hwf). simpl.
  rewrite sum_filters. reflexivity.
Qed.

Lemma blocks_words_split (l1 l2 : list json) (m : nat) :
  blocks_words (l1 ++ l2) = Ok m ->
  exists a b, blocks_words l1 = Ok a /\ blocks_words l2 = Ok b /\ m = a + b.
Proof.
  revert m. induction l1 as [|x l1 IH]; intros m H; simpl in *.
  - exists 0, m. auto.
  - destruct (block_words x) as [n|e]; simpl in H; [|discriminate].
    destruct (blocks_words (l1 ++ l2)) as [k|e] eqn:Hk; simpl in H; [|discriminate].
    injection H as <-. destruct (IH k eq_refl) as (a & b & Ha & Hb & ->).
    exists (n + a), b. rewrite Ha. simpl. split; [reflexivity|]. split; [exact Hb|lia].
Qed.

(** On a well-formed document, the reading time is 1 exactly when the document has fewer
    than 300 counted words; from 100 words on, [200 * r] is within 100 of the word count. *)
Theorem reading_time_rounding (content : json) (r : nat) :
  well_formed content = true ->
  calculate_reading_time content = Ok r ->
  (r = 1 <-> total_words content < 300) /\
  (100 <= total_words content ->
     total_words content <= 200 * r + 100 /\ 200 * r <= total_words content + 100).
Proof.
  intros Hwf Hr. rewrite reading_time_words in Hr by exact Hwf.
  injection Hr as <-. apply reading_round_bounds.
Qed.

(** Appending blocks to a document's block list never lowers its reading time. *)
Theorem reading_time_monotone (top1 top2 : list (string * json)) (bs extra : list json)
    (r1 r2 : nat) :
  calculate_reading_time (doc_with top1 bs top2) = Ok r1 ->
  calculate_reading_time (doc_with top1 (bs ++ extra) top2) = Ok r2 ->
  r1 <= r2.
Proof.
  unfold calculate_reading_time, doc_with.
  assert (Ht : forall l, truthy (JObj (top1 ++ ("blocks", JArr l) :: top2)) = true).
  { intros l. simpl. rewrite length_app. simpl.
    destruct (Nat.eqb_spec (List.length top1 + S (List.length top2)) 0); [lia|reflexivity]. }
  rewrite !Ht. cbn [negb]. rewrite !dict_get_app.
  destruct (dict_get top1 "blocks") as [v|].
  - intros H1 H2. rewrite H1 in H2. injection H2 as ->. lia.
  - cbn [dict_get String.eqb Ascii.eqb Bool.eqb]. simpl iter. simpl bind.
    destruct (blocks_words bs) as [w1|e] eqn:H1; simpl; [|discriminate].
    destruct (blocks_words (bs ++ extra)) as [w2|e] eqn:H2; simpl; [|discriminate].
    intros E1 E2. injection E1 as <-. injection E2 as <-.
    destruct (blocks_words_split bs extra w2 H2) as (a & b & Ha & Hb & ->).
    rewrite H1 in Ha. injection Ha as <-.
    pose proof (round_div_200_mono w1 (w1 + b) ltac:(lia)).
    destruct (round_div w1 200), (round_div (w1 + b) 200); lia.
Qed.

End ReadingTimeFacts.

Module MarkupFacts.
Import Py Derive StringFacts.

Lemma strip_tags_no_close (x : string) :
  has_char ">" x = false ->
  strip_tags_go None x = x /\ forall b, strip_tags_go (Some b) x = String "<" (b ++ x).
Proof.
  induction x as [|c rest IH]; intros Hx.
  - split; [reflexivity|]. intros b. simpl. now rewrite string_app_nil_r.
  - cbn [has_char] in Hx. apply orb_false_iff in Hx as [Hc Hr].
    destruct (IH Hr) as [IH1 IH2]. rewrite Ascii.eqb_sym in Hc. split.
    + simpl. destruct (Ascii.eqb_spec c "<") as [->|_].
      * rewrite IH2. reflexivity.
      * rewrite IH1. reflexivity.
    + intros b. simpl. rewrite Hc, IH2, string_app_assoc. reflexivity.
Qed.

Lemma strip_tags_go_clean (s : string) (buf : option string) :
  match buf with None => True | Some b => has_char ">" b = false end ->
  strip_tags (strip_tags_go buf s) = strip_tags_go buf s.
Proof.
  revert buf. induction s as [|c rest IH]; intros buf Hb.
  - destruct buf as [b|]; [|reflexivity]. simpl.
    unfold strip_tags. simpl. destruct (strip_tags_no_close b Hb) as [_ H].
    rewrite H. reflexivity.
  - destruct buf as [b|]; simpl.
    + destruct (Ascii.eqb c ">") eqn:Ec.
      * destruct b as [|c' b'].
        -- simpl. unfold strip_tags at 1. simpl. f_equal. f_equal. apply (IH None I).
        -- apply (IH None I).
      * apply IH. rewrite has_char_app, Hb. cbn [has_char orb]. rewrite Ascii.eqb_sym, Ec. reflexivity.
    + destruct (Ascii.eqb c "<") eqn:Ec.
      * apply IH. reflexivity.
      * unfold strip_tags at 1. simpl. rewrite Ec. f_equal. apply (IH None I).
Qed.

(** Removing tags a second time changes nothing. *)
Theorem strip_tags_idempotent (s : string) : strip_tags (strip_tags s) = strip_tags s.
Proof. apply (strip_tags_go_clean s None I). Qed.

Lemma substring_length (m : nat) (s : string) : String.length (substring 0 m s) <= m.
Proof.
  revert s. induction m as [|m IH]; intros s; destruct s as [|c s]; simpl; try lia.
  specialize (IH s). lia.
Qed.

Lemma length_string_app (s1 s2 : string) :
  String.length (s1 ++ s2) = String.length s1 + String.length s2.
Proof. induction s1 as [|c s1 IH]; simpl; [reflexivity|now rewrite IH]. Qed.

Lemma truncate_length (x : string) : String.length (truncate x) <= 203.
Proof.
  unfold truncate. destruct (Nat.ltb_spec 200 (String.length x)).
  - rewrite length_string_app. pose proof (substring_length 200 x). simpl. lia.
  - lia.
Qed.

Lemma paragraph_branch_length (kvs : list (string * json)) (e : string) :
  (data <- get (JObj kvs) "data" (JObj []) ;;
   text <- get data "text" (JStr EmptyString) ;;
   s <- as_str text ;;
   Ok (truncate (strip_tags s))) = Ok e ->
  String.length e <= 203.
Proof.
  simpl. destruct (dict_get kvs "data") as [d|]; simpl.
  - destruct d as [| | | | |dk]; simpl; try discriminate.
    destruct (dict_get dk "text") as [[| | |s| |]|]; simpl; try discriminate;
      intros H; injection H as <-; apply truncate_length.
  - intros H. injection H as <-. apply truncate_length.
Qed.

Lemma first_paragraph_length (bs : list json) (e : string) :
  first_paragraph bs = Ok e -> String.length e <= 203.
Proof.
  induction bs as [|b bs IH]; intros H.
  - simpl in H. injection H as <-. simpl. lia.
  - simpl in H. destruct b as [| | | | |kvs]; try discriminate.
    destruct (dict_get kvs "type") as [[| | |t| |]|]; try (apply IH; exact H).
    repeat match type of H with
           | context [match ?s with EmptyString => _ | String _ _ => _ end] =>
               destruct s; try (apply IH; exact H)
           | context [match ?c with Ascii _ _ _ _ _ _ _ _ => _ end] => destruct c
           | context [if ?b then _ else _] => destruct b; try (apply IH; exact H)
           end.
    exact (paragraph_branch_length kvs e H).
Qed.

(** Without a meta description, an excerpt is at most 203 characters long. *)
Theorem excerpt_length_bound (content : json) (e : string) :
  get_excerpt EmptyString content = Ok e -> String.length e <= 203.
Proof.
  unfold get_excerpt. cbn [String.eqb negb].
  destruct content as [| | | | |kvs]; try (intros H; injection H as <-; simpl; lia).
  destruct (truthy (JObj kvs)); [|intros H; injection H as <-; simpl; lia].
  destruct (iter _) as [bs|err]; simpl; [|discriminate].
  apply first_paragraph_length.
Qed.

End MarkupFacts.

Module PostWriteFacts.
Import Py Derive Posts Views Writes SlugFacts SlugClaims PublishClaims.

Lemma save_slug (now : Z) (db : store) (p row : BlogPost) (db' : store) :
  save now db p = Ok (row, db') -> row.(slug) = (assign_slug db p).(slug).
Proof.
  unfold save. destruct (save_fields now db p) as [p'|e] eqn:Hs; simpl; [|discriminate].
  rewrite <- (save_fields_slug now db p p' Hs).
  destruct (pk p'); intros H; injection H as <- _; reflexivity.
Qed.

Lemma not_taken_none (db : store) (s : string) :
  slug_taken db None s = false -> ~ In s (map slug db).
Proof.
  unfold slug_taken. intros H Hin. apply in_map_iff in Hin as (q & Hq & Hin).
  assert (existsb (fun q => String.eqb q.(slug) s && negb (same_pk q.(pk) None)) db = true).
  { apply existsb_exists. exists q. split; [exact Hin|].
    rewrite Hq, String.eqb_refl. destruct (pk q); reflexivity. }
  congruence.
Qed.

Lemma nodup_snoc {A : Type} (l : list A) (x : A) :
  NoDup l -> ~ In x l -> NoDup (l ++ [x])%list.
Proof.
  intros Hnd Hx. apply Permutation_NoDup with (x :: l).
  - apply Permutation_cons_append.
  - constructor; assumption.
Qed.

(** A successful create (201) appends exactly one row and keeps the slugs of the table
    pairwise distinct. *)
Theorem create_keeps_slugs_unique (now : Z) (db : store) (slug_param : option string)
    (p : BlogPost) (db' : store) :
  NoDup (map slug db) ->
  create now db slug_param p = (201, db') ->
  NoDup (map slug db') /\ exists row, db' = (db ++ [row])%list.
Proof.
  intros Hnd. unfold create.
  set (inst := set_slug (match slug_param with Some s => s | None => EmptyString end)
                 (set_ids None None None p)).
  destruct (negb _) eqn:Hv; [intros H; injection H; discriminate|].
  destruct (save now db inst) as [[row db'']|e] eqn:Hs; [|intros H; injection H; discriminate].
  intros H. injection H as <-.
  destruct (save_spec now db inst row db'' Hs) as (_ & _ & Hnone & _).
  rewrite (Hnone eq_refl). split; [|exists row; reflexivity].
  rewrite map_app. apply nodup_snoc; [exact Hnd|].
  rewrite (save_slug now db inst row db'' Hs).
  destruct slug_param as [s|].
  - apply negb_false_iff, andb_true_iff in Hv as [Hok Hfree].
    apply andb_true_iff in Hok as [Hok _]. apply andb_true_iff in Hok as [Hne _].
    apply negb_true_iff, String.eqb_neq in Hne.
    unfold assign_slug. cbn [slug inst set_slug set_ids].
    destruct (String.eqb_spec s EmptyString) as [|_]; [contradiction|].
    cbn [slug set_slug]. unfold validate_slug_create in Hfree.
    apply negb_true_iff in Hfree. intros Hin. apply in_map_iff in Hin as (q & Hq & Hin).
    assert (existsb (fun q => String.eqb q.(slug) s) db = true).
    { apply existsb_exists. exists q. split; [exact Hin|]. rewrite Hq. apply String.eqb_refl. }
    congruence.
  - unfold assign_slug. cbn [slug inst set_slug set_ids pk title String.eqb].
    destruct (unique_slug_free db None (slugify (title p))) as (k & Hk & Hfree & _).
    rewrite Hk. apply not_taken_none. exact Hfree.
Qed.

End PostWriteFacts.

Module PublishFacts.
Import Py Derive Posts Views PublishClaims.

(** A successful unpublish applies to a published post; afterwards its row is a draft
    that keeps its [published_at]. *)
Theorem unpublish_keeps_published_at (now : Z) (param : option string) (s : string)
    (db db' : store) (p : BlogPost) :
  get_object param s db = Some p ->
  unpublish now param s db = (200, db') ->
  p.(status_of) = Published /\
  forall q, In q db' -> same_pk q.(pk) p.(pk) = true ->
    q.(status_of) = Draft /\ q.(published_at) = p.(published_at).
Proof.
  intros Hg Hun. unfold unpublish in Hun. rewrite Hg in Hun.
  destruct (status_of p) eqn:Hst; [discriminate|]. cbn [status_eqb] in Hun.
  split; [reflexivity|].
  destruct (save now db (set_status Draft p)) as [[row db'']|e] eqn:Hs; [|discriminate].
  injection Hun as <-. intros q Hq Hpk.
  destruct (save_spec _ _ _ _ _ Hs) as (Hrow & Hrst & Hnone & Hsome).
  unfold stamped in Hrow. cbn [status_of published_at set_status] in Hrow, Hrst.
  destruct (pk p) as [n|] eqn:Hp.
  - destruct (Hsome n ltac:(cbn; exact Hp)) as [Hrpk ->].
    unfold update_row in Hq. apply in_map_iff in Hq as (q0 & Hq0 & Hin).
    destruct (same_pk (pk q0) (pk row)) eqn:Hsame.
    + subst q. split; assumption.
    + subst q. rewrite Hrpk in Hsame. congruence.
  - destruct (pk q); discriminate.
Qed.

(** Without [include_drafts=true] a publish request is answered 404 or 400 and leaves the
    table as it was. *)
Theorem publish_needs_include_drafts (now : Z) (param : option string) (s : string)
    (db : store) :
  include_drafts param = false ->
  publish now param s db = (404, db) \/ publish now param s db = (400, db).
Proof.
  intros Hinc. unfold publish.
  destruct (get_object param s db) as [q|] eqn:Hg; [|left; reflexivity].
  right. unfold get_object in Hg. apply find_some in Hg as [Hq _].
  unfold queryset in Hq. apply filter_In in Hq as [_ Hv].
  unfold visible in Hv. rewrite Hinc in Hv. cbn [orb] in Hv. rewrite Hv. reflexivity.
Qed.

End PublishFacts.

Module LimitFacts.
Import Py Views SlugFacts StringFacts.

Lemma is_digit_digit (d : nat) : d < 10 -> is_digit (digit d) = true.
Proof.
  intros Hd. unfold is_digit, digit. rewrite nat_ascii_embedding by lia.
  apply andb_true_iff. split; apply Nat.leb_le; lia.
Qed.

Lemma digit_not_space (c : ascii) : is_digit c = true -> is_space c = false.
Proof.
  unfold is_digit, is_space. intros H. apply andb_true_iff in H as [H1 H2].
  apply Nat.leb_le in H1, H2.
  destruct (Nat.leb_spec 9 (nat_of_ascii c)), (Nat.leb_spec (nat_of_ascii c) 13),
    (Nat.leb_spec 28 (nat_of_ascii c)), (Nat.leb_spec (nat_of_ascii c) 32);
    cbn [andb orb]; try reflexivity; lia.
Qed.

Lemma decimal_fuel_shape (f n : nat) :
  exists pre, list_ascii_of_string (decimal_fuel (S f) n) = (pre ++ [digit (n mod 10)])%list.
Proof.
  cbn [decimal_fuel]. rewrite list_ascii_app. eexists. reflexivity.
Qed.

Lemma decimal_fuel_digits (f n : nat) :
  forallb is_digit (list_ascii_of_string (decimal_fuel f n)) = true.
Proof.
  revert n. induction f as [|f IH]; intros n; [reflexivity|].
  cbn [decimal_fuel]. rewrite list_ascii_app, forallb_app. apply andb_true_iff. split.
  - destruct (Nat.ltb n 10); [reflexivity|apply IH].
  - cbn [list_ascii_of_string forallb]. rewrite is_digit_digit by (apply Nat.mod_upper_bound; lia).
    reflexivity.
Qed.

Lemma forallb_rev {A : Type} (f : A -> bool) (l : list A) :
  forallb f (rev l) = forallb f l.
Proof.
  induction l as [|x l IH]; simpl; [reflexivity|].
  rewrite forallb_app, IH. simpl. rewrite andb_true_r, andb_comm. reflexivity.
Qed.

Lemma drop_spaces_digits (l : list ascii) : forallb is_digit l = true -> drop_spaces l = l.
Proof.
  destruct l as [|c l]; [reflexivity|]. cbn [forallb drop_spaces].
  intros H. apply andb_true_iff in H as [H _]. rewrite (digit_not_space c H). reflexivity.
Qed.

Lemma digits_go_value (s : string) (acc : nat) (pd : bool) :
  forallb is_digit (list_ascii_of_string s) = true -> s <> EmptyString ->
  digits_go (Z.of_nat acc) pd (list_ascii_of_string s) = Some (Z.of_nat (decimal_value acc s)).
Proof.
  revert acc pd. induction s as [|c s IH]; intros acc pd Hd Hne; [contradiction|].
  cbn [list_ascii_of_string forallb] in Hd. apply andb_true_iff in Hd as [Hc Hs].
  cbn [list_ascii_of_string digits_go decimal_value]. rewrite Hc.
  replace (Z.of_nat acc * 10 + Z.of_nat (nat_of_ascii c - 48))%Z
    with (Z.of_nat (acc * 10 + (nat_of_ascii c - 48))) by lia.
  destruct s as [|c' s'].
  - reflexivity.
  - apply IH; [exact Hs|discriminate].
Qed.

Lemma string_of_nat_parts (n : nat) :
  exists c rest, list_ascii_of_string (string_of_nat n) = c :: rest /\
    forallb is_digit (c :: rest) = true /\
    exists d pre, rev (c :: rest) = d :: pre /\ is_digit d = true.
Proof.
  unfold string_of_nat.
  destruct (decimal_fuel_shape n n) as [pre Hpre].
  pose proof (decimal_fuel_digits (S n) n) as Hd. rewrite Hpre in Hd |- *.
  destruct (pre ++ [digit (n mod 10)])%list as [|c rest] eqn:E.
  - destruct pre; discriminate.
  - exists c, rest. split; [reflexivity|]. split; [exact Hd|].
    rewrite <- E, rev_app_distr. exists (digit (n mod 10)), (rev pre). split; [reflexivity|].
    apply is_digit_digit, Nat.mod_upper_bound. lia.
Qed.

Lemma int_of_string_nat (n : nat) : int_of_string (string_of_nat n) = Some (Z.of_nat n).
Proof.
  destruct (string_of_nat_parts n) as (c & rest & Hl & Hd & _).
  assert (Hall : forallb is_digit (list_ascii_of_string (string_of_nat n)) = true)
    by (rewrite Hl; exact Hd).
  assert (Hne : string_of_nat n <> EmptyString)
    by (intros He; rewrite He in Hl; discriminate).
  pose proof (digits_go_value _ 0 false Hall Hne) as Hv. rewrite Hl in Hv.
  unfold int_of_string. rewrite Hl, (drop_spaces_digits _ Hd).
  rewrite (drop_spaces_digits (rev (c :: rest))) by (rewrite forallb_rev; exact Hd).
  rewrite rev_involutive.
  cbn [forallb] in Hd. apply andb_true_iff in Hd as [Hc _].
  assert (Hp : Ascii.eqb c "+" = false).
  { destruct (Ascii.eqb_spec c "+") as [->|]; [discriminate|reflexivity]. }
  assert (Hm : Ascii.eqb c "-" = false).
  { destruct (Ascii.eqb_spec c "-") as [->|]; [discriminate|reflexivity]. }
  rewrite Hp, Hm. change 0%Z with (Z.of_nat 0). rewrite Hv.
  f_equal. f_equal. unfold string_of_nat. apply decimal_fuel_value. lia.
Qed.

Lemma trim_fix (l : list ascii) :
  match l with [] => True | c :: _ => is_space c = false end ->
  match rev l with [] => True | c :: _ => is_space c = false end ->
  rev (drop_spaces (rev (drop_spaces l))) = l.
Proof.
  intros H1 H2.
  assert (E1 : drop_spaces l = l) by (destruct l as [|c l]; [reflexivity|cbn; now rewrite H1]).
  rewrite E1.
  assert (E2 : drop_spaces (rev l) = rev l)
    by (destruct (rev l) as [|c l']; [reflexivity|cbn; now rewrite H2]).
  rewrite E2. apply rev_involutive.
Qed.

Lemma int_of_string_Z (z : Z) : int_of_string (string_of_Z z) = Some z.
Proof.
  unfold string_of_Z. destruct (Z.ltb_spec z 0) as [Hneg|Hnn].
  - set (m := Z.to_nat (- z)).
    destruct (string_of_nat_parts m) as (c & rest & Hl & Hd & d & pre & Hr & Hdd).
    assert (Hall : forallb is_digit (list_ascii_of_string (string_of_nat m)) = true)
      by (rewrite Hl; exact Hd).
    assert (Hne : string_of_nat m <> EmptyString)
      by (intros He; rewrite He in Hl; discriminate).
    pose proof (digits_go_value _ 0 false Hall Hne) as Hv. rewrite Hl in Hv.
    unfold int_of_string. rewrite list_ascii_app. cbn [list_ascii_of_string app].
    rewrite Hl. rewrite trim_fix.
    + replace (Ascii.eqb "-" "+") with false by reflexivity.
      replace (Ascii.eqb "-" "-") with true by reflexivity.
      change 0%Z with (Z.of_nat 0). rewrite Hv. cbn [option_map].
      unfold string_of_nat. rewrite decimal_fuel_value by lia.
      f_equal. unfold m. lia.
    + reflexivity.
    + change (rev ("-"%char :: c :: rest)) with (rev (c :: rest) ++ ["-"%char])%list.
      rewrite Hr. cbn [app]. exact (digit_not_space d Hdd).
  - rewrite int_of_string_nat. f_equal. lia.
Qed.

(** [int(str(z)) = z], and a [limit] given as the decimal text of [z] selects [z] posts,
    or 5 when [z] is not positive. *)
Theorem latest_limit_decimal (z : Z) :
  int_of_string (string_of_Z z) = Some z /\
  latest_limit (Some (string_of_Z z)) = (if Z.leb z 0 then 5 else z)%Z.
Proof.
  split; [apply int_of_string_Z|].
  unfold latest_limit. rewrite int_of_string_Z. reflexivity.
Qed.

End LimitFacts.

Module AdminFacts.
Import Py Derive Posts Admin PublishClaims.

Lemma update_where_facts (hit : BlogPost -> bool) (f g : BlogPost -> BlogPost)
    (keep : BlogPost -> bool) (db : store) :
  (forall p, g (f p) = g p) ->
  (forall p, keep (f p) = keep p) ->
  (forall p, hit p = true -> keep p = false) ->
  fst (update_where hit f db) = List.length (filter hit db) /\
  map g (snd (update_where hit f db)) = map g db /\
  (forall q, In q (snd (update_where hit f db)) ->
     exists p, In p db /\ q = if hit p then f p else p) /\
  filter keep (snd (update_where hit f db)) = filter keep db.
Proof.
  intros Hg Hk Hhk. unfold update_where. cbn [fst snd].
  split; [reflexivity|]. split; [|split].
  - rewrite map_map. apply map_ext. intros p. destruct (hit p); [apply Hg|reflexivity].
  - intros q Hq. apply in_map_iff in Hq as (p & <- & Hp). eauto.
  - induction db as [|p db IH]; [reflexivity|]. cbn [map filter].
    destruct (hit p) eqn:Hh.
    + rewrite Hk, (Hhk p Hh). exact IH.
    + destruct (keep p); [f_equal|]; exact IH.
Qed.

Lemma selected_status (sel : list nat) (st : status) (p : BlogPost) :
  selected sel (set_status st p) = selected sel p.
Proof. reflexivity. Qed.

(** [unpublish_posts] reports the number of selected published rows, turns every selected
    row into a draft, changes nothing but the status, and leaves unselected rows alone. *)
Theorem unpublish_posts_spec (sel : list nat) (db : store) :
  fst (unpublish_posts sel db)
    = List.length (filter (fun p => selected sel p && status_eqb p.(status_of) Published) db) /\
  map (set_status Draft) (snd (unpublish_posts sel db)) = map (set_status Draft) db /\
  (forall q, In q (snd (unpublish_posts sel db)) -> selected sel q = true ->
     q.(status_of) = Draft) /\
  filter (fun p => negb (selected sel p)) (snd (unpublish_posts sel db))
    = filter (fun p => negb (selected sel p)) db.
Proof.
  set (hit := fun p => selected sel p && status_eqb p.(status_of) Published).
  destruct (update_where_facts hit (set_status Draft) (set_status Draft)
              (fun p => negb (selected sel p)) db) as (H1 & H2 & H3 & H4).
  - reflexivity.
  - reflexivity.
  - intros p Hp. unfold hit in Hp. apply andb_true_iff in Hp as [Hp _]. now rewrite Hp.
  - unfold unpublish_posts. fold hit. split; [exact H1|]. split; [exact H2|]. split; [|exact H4].
    intros q Hq Hsel. destruct (H3 q Hq) as (p & _ & ->).
    destruct (hit p) eqn:Hh; [reflexivity|].
    unfold hit in Hh. rewrite Hsel in Hh. cbn [andb] in Hh.
    destruct (status_of p); [reflexivity|discriminate].
Qed.

Lemma set_featured_action (b : bool) (sel : list nat) (db : store) :
  fst (update_where (selected sel) (set_featured b) db)
    = List.length (filter (selected sel) db) /\
  map (set_featured false) (snd (update_where (selected sel) (set_featured b) db))
    = map (set_featured false) db /\
  (forall q, In q (snd (update_where (selected sel) (set_featured b) db)) ->
     selected sel q = true -> q.(is_featured) = b) /\
  filter (fun p => negb (selected sel p)) (snd (update_where (selected sel) (set_featured b) db))
    = filter (fun p => negb (selected sel p)) db.
Proof.
  destruct (update_where_facts (selected sel) (set_featured b) (set_featured false)
              (fun p => negb (selected sel p)) db) as (H1 & H2 & H3 & H4).
  - reflexivity.
  - reflexivity.
  - intros p Hp. now rewrite Hp.
  - split; [exact H1|]. split; [exact H2|]. split; [|exact H4].
    intros q Hq Hsel. destruct (H3 q Hq) as (p & _ & ->).
    destruct (selected sel p) eqn:Hs; [reflexivity|]. rewrite Hs in Hsel. discriminate.
Qed.

(** [mark_as_featured] / [unmark_as_featured] report the number of selected rows, set the
    flag on each of them, change nothing but the flag, and leave unselected rows alone. *)
Theorem featured_actions_spec (sel : list nat) (db : store) :
  (fst (mark_as_featured sel db) = List.length (filter (selected sel) db) /\
   map (set_featured false) (snd (mark_as_featured sel db)) = map (set_featured false) db /\
   (forall q, In q (snd (mark_as_featured sel db)) -> selected sel q = true ->
      q.(is_featured) = true) /\
   filter (fun p => negb (selected sel p)) (snd (mark_as_featured sel db))
     = filter (fun p => negb (selected sel p)) db) /\
  (fst (unmark_as_featured sel db) = List.length (filter (selected sel) db) /\
   map (set_featured false) (snd (unmark_as_featured sel db)) = map (set_featured false) db /\
   (forall q, In q (snd (unmark_as_featured sel db)) -> selected sel q = true ->
      q.(is_featured) = false) /\
   filter (fun p => negb (selected sel p)) (snd (unmark_as_featured sel db))
     = filter (fun p => negb (selected sel p)) db).
Proof. split; apply set_featured_action. Qed.

(** Saving a row with a key keeps the table's keys. *)
Lemma map_pk_update_row (row : BlogPost) (k : nat) (db : store) :
  row.(pk) = Some k -> map pk (update_row row db) = map pk db.
Proof.
  intros Hk. unfold update_row. rewrite map_map. apply map_ext. intros q.
  destruct (same_pk (pk q) (pk row)) eqn:Hs; [|reflexivity].
  rewrite Hk in *. destruct (pk q) as [j|]; [|discriminate].
  apply Nat.eqb_eq in Hs. now subst.
Qed.

Lemma publish_loop_spec (now : nat -> Z) (posts : list BlogPost) (u : nat) (db db' : store)
    (n : nat) :
  NoDup (map pk posts) ->
  (forall q, In q posts -> exists k, q.(pk) = Some k) ->
  publish_loop now posts u db = (db', Ok n) ->
  n = u + List.length posts /\ map pk db' = map pk db /\
  (forall q, In q posts -> forall r, In r db' -> r.(pk) = q.(pk) ->
     r.(status_of) = Published /\ r.(published_at) <> None /\
     (forall t, q.(published_at) = Some t -> r.(published_at) = Some t)) /\
  (forall r, In r db' -> In r db \/ exists q, In q posts /\ r.(pk) = q.(pk)).
Proof.
  revert u db. induction posts as [|post rest IH]; intros u db Hnd Hsome Hrun.
  - cbn in Hrun. injection Hrun as Hdb Hn. subst. split; [cbn; lia|]. split; [reflexivity|].
    split; [intros q []|]. intros r Hr. now left.
  - cbn [publish_loop] in Hrun.
    set (p1 := set_status Published post) in Hrun.
    set (p2 := match p1.(published_at) with
               | None => set_published_at (Some (now u)) p1
               | Some _ => p1
               end) in Hrun.
    destruct (save (now u) db p2) as [[row db1]|e] eqn:Hs; [|discriminate].
    inversion Hnd as [|x l Hnotin Hnd']; subst.
    destruct (Hsome post (or_introl eq_refl)) as [k Hk].
    destruct (IH (S u) db1 Hnd' (fun q Hq => Hsome q (or_intror Hq)) Hrun)
      as (Hn & Hpk & Hpub & Hold).
    destruct (save_spec _ _ _ _ _ Hs) as (Hrow & Hrst & _ & Hupd).
    assert (Hp2pk : p2.(pk) = Some k)
      by (unfold p2, p1; cbn; destruct (published_at post); exact Hk).
    destruct (Hupd k Hp2pk) as [Hrpk Hdb1].
    assert (Hp2st : p2.(status_of) = Published)
      by (unfold p2, p1; cbn; destruct (published_at post); reflexivity).
    assert (Hp2pub : forall t, post.(published_at) = Some t -> p2.(published_at) = Some t)
      by (intros t Ht; unfold p2, p1; cbn; rewrite Ht; cbn; exact Ht).
    assert (Hp2some : p2.(published_at) <> None)
      by (unfold p2, p1; cbn; destruct (published_at post) eqn:E; cbn; try rewrite E; congruence).
    assert (Hrowpub : row.(published_at) = p2.(published_at)).
    { rewrite Hrow. unfold stamped. rewrite Hp2st.
      destruct (published_at p2); [reflexivity|contradiction]. }
    split; [cbn; lia|]. split.
    { rewrite Hpk, Hdb1. apply (map_pk_update_row row k). exact Hrpk. }
    split.
    + intros q [<-|Hq] r Hr Hrq.
      * destruct (Hold r Hr) as [Hr1|(q' & Hq' & Hrq')].
        -- rewrite Hdb1 in Hr1. unfold update_row in Hr1.
           apply in_map_iff in Hr1 as (q0 & Hq0 & Hin0).
           destruct (same_pk (pk q0) (pk row)) eqn:Hsame.
           ++ subst r. rewrite Hrowpub, Hrst, Hp2st. split; [reflexivity|].
              split; [exact Hp2some|exact Hp2pub].
           ++ subst r. rewrite Hrq, Hk, Hrpk in Hsame. cbn in Hsame.
              rewrite Nat.eqb_refl in Hsame. discriminate.
        -- exfalso. apply Hnotin. rewrite <- Hrq, Hrq'. apply in_map. exact Hq'.
      * exact (Hpub q Hq r Hr Hrq).
    + intros r Hr. destruct (Hold r Hr) as [Hr1|(q' & Hq' & Hrq')].
      * rewrite Hdb1 in Hr1. unfold update_row in Hr1.
        apply in_map_iff in Hr1 as (q0 & Hq0 & Hin0).
        destruct (same_pk (pk q0) (pk row)) eqn:Hsame.
        -- right. exists post. split; [now left|]. subst r. rewrite Hrpk, Hk. reflexivity.
        -- left. subst r. exact Hin0.
      * right. exists q'. split; [now right|exact Hrq'].
Qed.

Lemma nodup_map_filter {A B : Type} (f : A -> B) (h : A -> bool) (l : list A) :
  NoDup (map f l) -> NoDup (map f (filter h l)).
Proof.
  induction l as [|x l IH]; cbn [map filter]; intros Hnd; [constructor|].
  inversion Hnd as [|y m Hnotin Hnd']; subst.
  destruct (h x); [|exact (IH Hnd')]. cbn [map]. constructor; [|exact (IH Hnd')].
  intros Hin. apply Hnotin. apply in_map_iff in Hin as (z & Hz & Hin).
  apply filter_In in Hin as [Hin _]. rewrite <- Hz. apply in_map. exact Hin.
Qed.

(** When [publish_posts] completes, its count is the number of selected drafts; each of
    them is stored published with a [published_at] (its earlier one if it had one); the keys
    are kept and no other row changes. *)
Theorem publish_posts_spec (now : nat -> Z) (sel : list nat) (db db' : store) (n : nat) :
  NoDup (map pk db) ->
  publish_posts now sel db = (db', Ok n) ->
  let drafts := filter (fun p => selected sel p && status_eqb p.(status_of) Draft) db in
  n = List.length drafts /\ map pk db' = map pk db /\
  (forall q, In q drafts -> forall r, In r db' -> r.(pk) = q.(pk) ->
     r.(status_of) = Published /\ r.(published_at) <> None /\
     (forall t, q.(published_at) = Some t -> r.(published_at) = Some t)) /\
  (forall r, In r db' -> In r db \/ exists q, In q drafts /\ r.(pk) = q.(pk)).
Proof.
  intros Hnd Hrun drafts.
  apply publish_loop_spec in Hrun as (Hn & Hpk & Hpub & Hold).
  - split; [exact Hn|]. split; [exact Hpk|]. split; assumption.
  - apply nodup_map_filter. exact Hnd.
  - intros q Hq. apply filter_In in Hq as [_ Hq]. apply andb_true_iff in Hq as [Hq _].
    unfold selected in Hq. destruct (pk q) as [k|]; [now exists k|discriminate].
Qed.

End AdminFacts.

Module SeoWriteFacts.
Import Py Seo SeoWrites.

Lemma or_default_idem (x d : string) : or_default (or_default x d) d = or_default x d.
Proof.
  unfold or_default. destruct (String.eqb x EmptyString) eqn:Hx; [|now rewrite Hx].
  destruct (String.eqb d EmptyString); reflexivity.
Qed.

(** Saving an [SEOTag] a second time fills in nothing more. *)
Theorem save_defaults_idempotent (t : SEOTag) :
  save_defaults (save_defaults t) = save_defaults t.
Proof.
  unfold save_defaults. cbn -[or_default].
  rewrite !or_default_idem. reflexivity.
Qed.

Lemma page_id_save_defaults (t : SEOTag) : (save_defaults t).(page_id) = t.(page_id).
Proof. reflexivity. Qed.

Lemma max_key_ge (tbl : tag_table) (row : nat * SEOTag) : In row tbl -> fst row <= max_key tbl.
Proof.
  induction tbl as [|r tbl IH]; cbn [In max_key fold_right]; [intros []|].
  intros [<-|H]; [lia|]. specialize (IH H). unfold max_key in IH. lia.
Qed.

Lemma page_id_taken_none (tbl : tag_table) (v : string) :
  page_id_taken tbl None v = false -> forall row, In row tbl -> (snd row).(page_id) <> v.
Proof.
  intros H row Hin Heq. unfold page_id_taken in H.
  assert (existsb (fun row => String.eqb (page_id (snd row)) v && negb false) tbl = true)
    as Hc by (apply existsb_exists; exists row; split; [exact Hin|];
              rewrite Heq, String.eqb_refl; reflexivity).
  rewrite H in Hc. discriminate.
Qed.

Lemma page_id_taken_some (tbl : tag_table) (k : nat) (v : string) :
  page_id_taken tbl (Some k) v = false ->
  forall row, In row tbl -> fst row <> k -> (snd row).(page_id) <> v.
Proof.
  intros H row Hin Hk Heq. unfold page_id_taken in H.
  assert (existsb (fun row => String.eqb (page_id (snd row)) v
                               && negb (Nat.eqb (fst row) k)) tbl = true) as Hc.
  { apply existsb_exists; exists row; split; [exact Hin|].
    rewrite Heq, String.eqb_refl. apply Nat.eqb_neq in Hk. rewrite Hk. reflexivity. }
  rewrite H in Hc. discriminate.
Qed.

Lemma replace_keys (tbl : tag_table) (k : nat) (x : SEOTag) :
  map fst (map (fun row => if Nat.eqb (fst row) k then (k, x) else row) tbl) = map fst tbl.
Proof.
  rewrite map_map. apply map_ext. intros row.
  destruct (Nat.eqb (fst row) k) eqn:H; [apply Nat.eqb_eq in H; now subst|reflexivity].
Qed.

Lemma replace_page_ids (tbl : tag_table) (k : nat) (x : SEOTag) :
  NoDup (map fst tbl) -> NoDup (map (fun row => (snd row).(page_id)) tbl) ->
  (forall row, In row tbl -> fst row <> k -> (snd row).(page_id) <> x.(page_id)) ->
  NoDup (map (fun row => (snd row).(page_id))
           (map (fun row => if Nat.eqb (fst row) k then (k, x) else row) tbl)).
Proof.
  induction tbl as [|row tbl IH]; intros Hk Hp Hv; [constructor|].
  cbn [map] in *. inversion Hk as [|a l Hka Hk']; subst.
  inversion Hp as [|a l Hpa Hp']; subst.
  constructor; [|apply IH; [exact Hk'|exact Hp'|intros r Hr; apply Hv; now right]].
  rewrite map_map. intros Hin. apply in_map_iff in Hin as (r & Hr & Hin).
  destruct (Nat.eqb (fst row) k) eqn:H1; destruct (Nat.eqb (fst r) k) eqn:H2;
    apply Nat.eqb_eq in H1 || apply Nat.eqb_neq in H1;
    apply Nat.eqb_eq in H2 || apply Nat.eqb_neq in H2; cbn [snd] in Hr.
  - apply Hka. rewrite H1, <- H2. apply in_map. exact Hin.
  - exact (Hv r (or_intror Hin) H2 Hr).
  - exact (Hv row (or_introl eq_refl) H1 (eq_sym Hr)).
  - apply Hpa. rewrite <- Hr. apply (in_map (fun row => page_id (snd row))). exact Hin.
Qed.

(** The create and update endpoints of [SEOTag] keep the keys and the [page_id]s of the
    table pairwise distinct. *)
Theorem tag_writes_keep_keys_unique (user : option string) (tbl : tag_table)
    (t : SEOTag) (k : nat) :
  NoDup (map fst tbl) -> NoDup (map (fun row => (snd row).(page_id)) tbl) ->
  (NoDup (map fst (snd (create_tag user tbl t))) /\
   NoDup (map (fun row => (snd row).(page_id)) (snd (create_tag user tbl t)))) /\
  (NoDup (map fst (snd (update_tag user tbl k t))) /\
   NoDup (map (fun row => (snd row).(page_id)) (snd (update_tag user tbl k t)))).
Proof.
  intros Hk Hp. split.
  - unfold create_tag. destruct (tag_valid tbl None t) eqn:Hv; cbn [snd]; [|split; assumption].
    unfold tag_valid in Hv. apply andb_true_iff in Hv as [Hv _].
    apply andb_true_iff in Hv as [Hv _]. apply negb_true_iff in Hv.
    rewrite !map_app. cbn [map fst snd]. split.
    + apply NoDup_app; [exact Hk|repeat constructor; intros []|].
      intros a Ha [Heq|[]]. apply in_map_iff in Ha as (row & Hr & Hin).
      pose proof (max_key_ge tbl row Hin). lia.
    + apply NoDup_app; [exact Hp|repeat constructor; intros []|].
      intros a Ha [Heq|[]]. apply in_map_iff in Ha as (row & <- & Hin).
      exact (page_id_taken_none tbl _ Hv row Hin (eq_sym Heq)).
  - unfold update_tag. destruct (find (fun row => Nat.eqb (fst row) k) tbl) as [[k0 old]|];
      cbn [snd]; [|split; assumption].
    destruct (tag_valid tbl (Some k) t) eqn:Hv; cbn [snd]; [|split; assumption].
    unfold tag_valid in Hv. apply andb_true_iff in Hv as [Hv _].
    apply andb_true_iff in Hv as [Hv _]. apply negb_true_iff in Hv.
    split; [rewrite replace_keys; exact Hk|].
    apply replace_page_ids; [exact Hk|exact Hp|].
    intros row Hin Hne. exact (page_id_taken_some tbl k _ Hv row Hin Hne).
Qed.

Lemma has_pk_nonempty (k : nat) (tbl : table) : has_pk k tbl = true -> tbl <> [].
Proof. destruct tbl; [discriminate|congruence]. Qed.

Lemma load_has_pk (tbl : table) : has_pk 1 (advanced_load tbl) = true.
Proof.
  unfold advanced_load. destruct (has_pk 1 tbl) eqn:H; [exact H|].
  unfold advanced_save, write_row. rewrite H. cbn.
  unfold has_pk. rewrite existsb_app. cbn. apply orb_true_r.
Qed.

Lemma replace_has_pk (tbl : table) (k : nat) (s : AdvancedSettings) :
  has_pk k tbl = true ->
  has_pk k (map (fun row => if Nat.eqb (fst row) k then (k, s) else row) tbl) = true.
Proof.
  unfold has_pk. intros H. apply existsb_exists in H as (row & Hin & Hr).
  apply existsb_exists. exists (k, s). split; [|apply Nat.eqb_refl].
  apply in_map_iff. exists row. rewrite Hr. split; [reflexivity|exact Hin].
Qed.

Lemma advanced_update_table (d : settings_input) (user : option string) (tbl : table) :
  snd (advanced_update d user tbl)
  = if input_valid d then
      map (fun row => if Nat.eqb (fst row) 1
                      then (1, apply_input d user (settings_of (advanced_load tbl))) else row)
        (advanced_load tbl)
    else advanced_load tbl.
Proof.
  unfold advanced_update. destruct (input_valid d); [|reflexivity].
  unfold advanced_save, write_row. cbn [settings].
  rewrite load_has_pk. reflexivity.
Qed.

(** After a GET or a PUT/PATCH on the advanced settings, the admin no longer offers to add
    an [AdvancedSEO] row. *)
Theorem advanced_endpoints_block_add (d : settings_input) (user : option string) (tbl : table) :
  has_add_permission (snd (advanced_list tbl)) = false /\
  has_add_permission (snd (advanced_update d user tbl)) = false.
Proof.
  pose proof (has_pk_nonempty 1 _ (load_has_pk tbl)) as Hne.
  split.
  - unfold advanced_list. cbn [snd]. destruct (advanced_load tbl); [congruence|reflexivity].
  - rewrite advanced_update_table.
    destruct (input_valid d); destruct (advanced_load tbl); congruence || reflexivity.
Qed.

Lemma find_replace (tbl : table) (k : nat) (s : AdvancedSettings) :
  has_pk k tbl = true ->
  find (fun row => Nat.eqb (fst row) k)
    (map (fun row => if Nat.eqb (fst row) k then (k, s) else row) tbl) = Some (k, s).
Proof.
  induction tbl as [|row tbl IH]; [discriminate|]. unfold has_pk. cbn [existsb map find].
  destruct (Nat.eqb (fst row) k) eqn:H; cbn [fst].
  - rewrite Nat.eqb_refl. reflexivity.
  - rewrite H. cbn [orb]. exact IH.
Qed.

(** The serializer field on sample values: surrounding whitespace is
    dropped, an integer is written in decimal, and null, booleans, lists
    and strings holding a NUL are rejected. *)
Lemma char_field_examples :
  char_field (JStr "  G-123 ") = Some "G-123" /\
  char_field (JNum 42) = Some "42" /\
  char_field (JStr "   ") = Some EmptyString /\
  char_field JNull = None /\ char_field (JBool true) = None /\
  char_field (JArr []) = None /\
  char_field (JStr (String (ascii_of_nat 0) "x")) = None.
Proof. repeat split; vm_compute; reflexivity. Qed.

(** A valid PUT/PATCH on the advanced settings stores the loaded settings
    with each submitted field replaced by its validated value (a string
    stripped of surrounding whitespace, or an integer written in decimal)
    and [updated_by] set to the user, and answers with the stored fields
    (without [updated_by]); a GET after it returns the same fields and
    writes nothing.  An invalid one (a null, boolean, list or object value,
    or a string holding a NUL) answers 400 and writes nothing beyond the
    row [load] creates. *)
Theorem advanced_update_then_list (d : settings_input) (user : option string) (tbl : table) :
  (input_valid d = true ->
   settings_of (snd (advanced_update d user tbl))
   = apply_input d user (settings_of (advanced_load tbl)) /\
   fst (advanced_update d user tbl)
   = Some (serialize_settings (apply_input d user (settings_of (advanced_load tbl)))) /\
   advanced_list (snd (advanced_update d user tbl))
   = (serialize_settings (apply_input d user (settings_of (advanced_load tbl))),
      snd (advanced_update d user tbl))) /\
  (input_valid d = false -> advanced_update d user tbl = (None, advanced_load tbl)).
Proof.
  split; [intros Hv|intros Hv; unfold advanced_update; rewrite Hv; reflexivity].
  pose proof (advanced_update_table d user tbl) as Ht. rewrite Hv in Ht.
  pose proof (load_has_pk tbl) as Hk.
  set (s := apply_input d user (settings_of (advanced_load tbl))) in *.
  assert (Hs : settings_of (snd (advanced_update d user tbl)) = s).
  { rewrite Ht. unfold settings_of. rewrite (find_replace _ 1 _ Hk). reflexivity. }
  split; [exact Hs|split].
  - unfold advanced_update. rewrite Hv. fold s.
    unfold advanced_save, write_row. cbn [settings]. rewrite Hk. reflexivity.
  - assert (Hk' : has_pk 1 (snd (advanced_update d user tbl)) = true).
    { rewrite Ht. exact (replace_has_pk _ 1 _ Hk). }
    unfold advanced_list, advanced_load. rewrite Hk'. rewrite Hs. reflexivity.
Qed.

End SeoWriteFacts.

(** ** Witnesses of the properties with hypotheses *)

Module ExtraWitnesses.
Import Py Derive Blocks Posts Views Tags Writes Admin Seo SeoWrites Samples ExtraSamples.

Lemma tag_list_entries_clean_witness :
  In "charging" (get_tag_list sample_tags) /\
  ("charging" <> EmptyString /\ strip "charging" = "charging" /\ has_char "," "charging" = false).
Proof.
  assert (H : In "charging" (get_tag_list sample_tags)) by (vm_compute; auto).
  split; [exact H|]. exact (TagLists.tag_list_entries_clean sample_tags "charging" H).
Defined.

Lemma tag_list_round_trip_witness :
  get_tag_list (String.concat ", " ["tesla"; "charging"; "battery"])
  = ["tesla"; "charging"; "battery"].
Proof.
  apply TagLists.tag_list_round_trip.
  intros t Ht. repeat (destruct Ht as [<-|Ht]; [split; [discriminate|split; reflexivity]|]).
  destruct Ht.
Defined.

Lemma reading_time_rounding_witness :
  well_formed c1_doc = true /\ calculate_reading_time c1_doc = Ok 2 /\
  ((2 = 1 <-> total_words c1_doc < 300) /\
   (100 <= total_words c1_doc ->
      total_words c1_doc <= 200 * 2 + 100 /\ 200 * 2 <= total_words c1_doc + 100)).
Proof.
  assert (H1 : well_formed c1_doc = true) by (vm_compute; reflexivity).
  assert (H2 : calculate_reading_time c1_doc = Ok 2) by (vm_compute; reflexivity).
  split; [exact H1|]. split; [exact H2|].
  exact (ReadingTimeFacts.reading_time_rounding c1_doc 2 H1 H2).
Defined.

Lemma reading_time_monotone_witness :
  calculate_reading_time (doc_with [] [header_block] []) = Ok 1 /\
  calculate_reading_time (doc_with [] ([header_block] ++ [long_block; long_block])%list []) = Ok 4 /\
  1 <= 4.
Proof.
  assert (H1 : calculate_reading_time (doc_with [] [header_block] []) = Ok 1)
    by (vm_compute; reflexivity).
  assert (H2 : calculate_reading_time
                 (doc_with [] ([header_block] ++ [long_block; long_block])%list []) = Ok 4)
    by (vm_compute; reflexivity).
  split; [exact H1|]. split; [exact H2|].
  exact (ReadingTimeFacts.reading_time_monotone [] [] [header_block] [long_block; long_block]
           1 4 H1 H2).
Defined.

Lemma excerpt_length_bound_witness :
  get_excerpt EmptyString long_paragraph_doc
    = Ok (substring 0 200 (many_words 150) ++ "...") /\
  String.length (substring 0 200 (many_words 150) ++ "...") <= 203.
Proof.
  assert (H : get_excerpt EmptyString long_paragraph_doc
              = Ok (substring 0 200 (many_words 150) ++ "...")) by (vm_compute; reflexivity).
  split; [exact H|]. exact (MarkupFacts.excerpt_length_bound _ _ H).
Defined.

Lemma create_keeps_slugs_unique_witness :
  NoDup (map slug hello_db2) /\
  Writes.create 3 hello_db2 None (new_post "Hello World")
    = (201, snd (Writes.create 3 hello_db2 None (new_post "Hello World"))) /\
  (NoDup (map slug (snd (Writes.create 3 hello_db2 None (new_post "Hello World")))) /\
   exists row, snd (Writes.create 3 hello_db2 None (new_post "Hello World"))
               = (hello_db2 ++ [row])%list).
Proof.
  assert (H1 : NoDup (map slug hello_db2)).
  { vm_compute. repeat constructor; cbv; intuition discriminate. }
  assert (H2 : Writes.create 3 hello_db2 None (new_post "Hello World")
               = (201, snd (Writes.create 3 hello_db2 None (new_post "Hello World"))))
    by (vm_compute; reflexivity).
  split; [exact H1|]. split; [exact H2|].
  exact (PostWriteFacts.create_keeps_slugs_unique 3 hello_db2 None (new_post "Hello World") _ H1 H2).
Defined.

Lemma unpublish_keeps_published_at_witness :
  get_object None "ev-news" published_db = Some (hd (new_post EmptyString) published_db) /\
  unpublish 20 None "ev-news" published_db = (200, snd (unpublish 20 None "ev-news" published_db)) /\
  ((hd (new_post EmptyString) published_db).(status_of) = Published /\
   forall q, In q (snd (unpublish 20 None "ev-news" published_db)) ->
     same_pk q.(pk) (hd (new_post EmptyString) published_db).(pk) = true ->
     q.(status_of) = Draft /\
     q.(published_at) = (hd (new_post EmptyString) published_db).(published_at)).
Proof.
  assert (H1 : get_object None "ev-news" published_db
               = Some (hd (new_post EmptyString) published_db)) by (vm_compute; reflexivity).
  assert (H2 : unpublish 20 None "ev-news" published_db
               = (200, snd (unpublish 20 None "ev-news" published_db)))
    by (vm_compute; reflexivity).
  split; [exact H1|]. split; [exact H2|].
  exact (PublishFacts.unpublish_keeps_published_at 20 None "ev-news" published_db _ _ H1 H2).
Defined.

Lemma publish_needs_include_drafts_witness :
  include_drafts None = false /\
  (publish 20 None "draft" draft_db = (404, draft_db) \/
   publish 20 None "draft" draft_db = (400, draft_db)).
Proof.
  assert (H : include_drafts None = false) by reflexivity.
  split; [exact H|]. exact (PublishFacts.publish_needs_include_drafts 20 None "draft" draft_db H).
Defined.

Lemma publish_posts_spec_witness :
  NoDup (map pk draft_db) /\
  publish_posts (fun _ => 50%Z) [1] draft_db
    = (fst (publish_posts (fun _ => 50%Z) [1] draft_db), Ok 1) /\
  (let drafts := filter (fun p => selected [1] p && status_eqb p.(status_of) Draft) draft_db in
   let db' := fst (publish_posts (fun _ => 50%Z) [1] draft_db) in
   1 = List.length drafts /\ map pk db' = map pk draft_db /\
   (forall q, In q drafts -> forall r, In r db' -> r.(pk) = q.(pk) ->
      r.(status_of) = Published /\ r.(published_at) <> None /\
      (forall t, q.(published_at) = Some t -> r.(published_at) = Some t)) /\
   (forall r, In r db' -> In r draft_db \/ exists q, In q drafts /\ r.(pk) = q.(pk))).
Proof.
  assert (H1 : NoDup (map pk draft_db)) by (repeat constructor; intros []).
  assert (H2 : publish_posts (fun _ => 50%Z) [1] draft_db
               = (fst (publish_posts (fun _ => 50%Z) [1] draft_db), Ok 1))
    by (vm_compute; reflexivity).
  split; [exact H1|]. split; [exact H2|].
  exact (AdminFacts.publish_posts_spec (fun _ => 50%Z) [1] draft_db _ 1 H1 H2).
Defined.

Lemma tag_writes_keep_keys_unique_witness :
  NoDup (map fst seo_table) /\ NoDup (map (fun row => (snd row).(page_id)) seo_table) /\
  ((NoDup (map fst (snd (create_tag (Some "editor") seo_table (seo_row "contact" "/contact")))) /\
    NoDup (map (fun row => (snd row).(page_id))
             (snd (create_tag (Some "editor") seo_table (seo_row "contact" "/contact"))))) /\
   (NoDup (map fst (snd (update_tag (Some "editor") seo_table 2 (seo_row "contact" "/contact")))) /\
    NoDup (map (fun row => (snd row).(page_id))
             (snd (update_tag (Some "editor") seo_table 2 (seo_row "contact" "/contact")))))).
Proof.
  assert (H1 : NoDup (map fst seo_table)).
  { cbn. repeat constructor; cbn; intuition discriminate. }
  assert (H2 : NoDup (map (fun row => (snd row).(page_id)) seo_table)).
  { cbn. repeat constructor; cbn; intuition discriminate. }
  split; [exact H1|]. split; [exact H2|].
  exact (SeoWriteFacts.tag_writes_keep_keys_unique (Some "editor") seo_table
           (seo_row "contact" "/contact") 2 H1 H2).
Defined.

End ExtraWitnesses.
